(** * configkit: configuration bootstrapping over cobra and viper

    A shallow embedding of the Go package [configkit] (loader, load result and
    version printers) together with the part of its collaborators that the
    package drives: the flag parser (pflag), the command runner (cobra) and
    the layered key/value store (viper).

    Layout: Go values and errors, the writer interface, the collaborators
    (one module each), the package itself, then the properties. *)

From stdpp Require Import gmap strings list fin_maps pretty.
From Stdlib Require Import ZArith Ascii.

Local Open Scope string_scope.

(** The line terminator and the double quote, as one-byte strings. *)
Definition newline : string := String (ascii_of_nat 10) EmptyString.
Definition dquote : string := String (ascii_of_nat 34) EmptyString.

(** ** Go values the package handles *)

(** [reflect.Kind] of a value that is not a pointer. *)
Inductive ValueKind :=
| Invalid | Bool | Int | Int8 | Int16 | Int32 | Int64
| Uint | Uint8 | Uint16 | Uint32 | Uint64 | Uintptr
| Float32 | Float64 | Complex64 | Complex128
| Array | Chan | Func | Interface | Map | Slice | String_ | Struct
| UnsafePointer.

(** [reflect.Kind]: [Ptr], or one of the others. *)
Inductive Kind :=
| Ptr
| Other (k : ValueKind).

(** The [cfg any] argument of [Load]. A nil interface is [Value Invalid];
    a pointer carries the kind of what it points to, or [None] when it is a
    nil pointer. The pointee itself lives in the caller's memory, which the
    embedding threads as the [dest] component of the state. *)
Inductive Any :=
| Value (k : ValueKind)
| Pointer (elem : option ValueKind).

(** [reflect.ValueOf(cfg).Kind()]. *)
Definition KindOf (cfg : Any) : Kind :=
  match cfg with
  | Value k => Other k
  | Pointer _ => Ptr
  end.

(** Leaves of a decoded configuration tree. *)
Inductive Setting :=
| VString (s : string)
| VInt (n : Z)
| VBool (b : bool).

(** ** Errors

    Every [fmt.Errorf] site of the package is a constructor holding the
    operands of its format; [%w] operands are the [cause]. [Foreign] stands
    for an error value made outside the package (a sink, a custom printer,
    pflag, viper, mapstructure). *)
Inductive error :=
| Foreign (msg : string)
| ConfigFileNotFoundError (name locations : string) (* viper.ConfigFileNotFoundError *)
| NilWriterReceived                              (* "nil writer received" *)
| CfgMustBePointer (got : Kind)                  (* "cfg must be a pointer to a struct - got %s" *)
| PrintVersionMustBeFunction                     (* "printVersion must be a function" *)
| WriterMustBeNonNil                             (* "writer must be a non-nil writer" *)
| BindConfigFlag (cause : error)                 (* "bind config flag: %w" *)
| BindVersionFlag (cause : error)                (* "bind version flag: %w" *)
| PrintVersionFailed (cause : error)             (* "print version: %w" *)
| ConfigFileNotFoundAt (path : string)           (* "config file not found at %q" *)
| ReadMainConfigAt (path : string) (cause : error) (* "read main config at %q: %w" *)
| UnmarshalMainConfig (cause : error)            (* "unmarshal main config: %w" *)
| BuildRootCommand (cause : error)               (* "build root command: %w" *)
| ExecuteRootCommand (cause : error).            (* "execute root command: %w" *)

(** [errors.Unwrap]. *)
Definition Unwrap (e : error) : option error :=
  match e with
  | BindConfigFlag c | BindVersionFlag c | PrintVersionFailed c
  | ReadMainConfigAt _ c | UnmarshalMainConfig c
  | BuildRootCommand c | ExecuteRootCommand c => Some c
  | _ => None
  end.

(** The error kinds of the specification. *)
Inductive ErrorKind :=
| InvalidArgument | ConfigNotFound | ConfigParseError | ConfigUnmarshalError
| FlagBindingError | VersionWriteError | External.

(** Kind of an error: that of the innermost site of the package on the
    [Unwrap] chain below the two wrappers [Load] adds. *)
Fixpoint kind_of (e : error) : ErrorKind :=
  match e with
  | Foreign _ | ConfigFileNotFoundError _ _ => External
  | NilWriterReceived | CfgMustBePointer _
  | PrintVersionMustBeFunction | WriterMustBeNonNil => InvalidArgument
  | BindConfigFlag _ | BindVersionFlag _ => FlagBindingError
  | PrintVersionFailed _ => VersionWriteError
  | ConfigFileNotFoundAt _ => ConfigNotFound
  | ReadMainConfigAt _ _ => ConfigParseError
  | UnmarshalMainConfig _ => ConfigUnmarshalError
  | BuildRootCommand c | ExecuteRootCommand c => kind_of c
  end.

(** The path an error reports, if any. *)
Fixpoint path_of (e : error) : option string :=
  match e with
  | ConfigFileNotFoundAt p | ReadMainConfigAt p _ => Some p
  | BuildRootCommand c | ExecuteRootCommand c => path_of c
  | _ => None
  end.

(** ** Sinks: [io.Writer]

    [Write w p] is one call of the sink's [Write] method on the bytes [p]:
    the sink afterwards, the count and the error it reports. An interface
    value of type [io.Writer] is an [option W]: [None] is nil. *)
Class Writer (W : Type) := Write : W → string → W * (nat * option error).

(** [bytes.Buffer]: appends, never fails. *)
Record Buffer := { contents : string }.

#[export] Instance Buffer_Writer : Writer Buffer :=
  fun b p => ({| contents := contents b +:+ p |}, (String.length p, None)).

(** A sink whose every write fails with [reason], accepting no byte; it
    records how often it was asked. *)
Record Broken := { reason : string; attempts : nat }.

#[export] Instance Broken_Writer : Writer Broken :=
  fun b _ => ({| reason := reason b; attempts := S (attempts b) |},
              (0, Some (Foreign (reason b)))).

(** A [func(io.Writer) error]: from the sink it is handed to the sink it
    leaves and its result. A printer acts on the sink only. *)
Definition VersionPrinter (W : Type) := option W → option W * option error.

(** ** version.go *)

Section version.
Context {W : Type} `{Writer W}.

(** [fmt.Fprintln(w, s)] for a single string operand: one write of [s]
    and a newline. *)
Definition Fprintln (w : W) (s : string) : W * (nat * option error) :=
  Write w (s +:+ newline).

Definition PlainVersionPrinter (version : string) : VersionPrinter W :=
  fun w =>
    match w with
    | None => (None, Some NilWriterReceived)
    | Some w =>
        let '(w', (_, err)) := Fprintln w version in
        (Some w', err)
    end.

(** [encoding/json]'s encoding of a Go string as a JSON string literal
    (quotes, escapes, HTML-safe sequences) belongs to the standard
    library. *)
Variable jsonString : string → string.

(** The struct [info] with its tags. *)
Record info := { Version : string; Commit : string; Date : string }.

Record field := { tag : string; omitempty : bool; get : info → string }.

Definition info_fields : list field :=
  [ {| tag := "version"; omitempty := false; get := Version |};
    {| tag := "commit"; omitempty := true; get := Commit |};
    {| tag := "date"; omitempty := true; get := Date |} ].

(** The members the struct encoder emits: declared order, a field tagged
    [omitempty] skipped when its string is empty. *)
Definition members (data : info) : list (string * string) :=
  omap (fun f =>
          if omitempty f && bool_decide (get f data = EmptyString)
          then None else Some (tag f, get f data))
       info_fields.

Definition member_text (m : string * string) : string :=
  dquote +:+ fst m +:+ dquote +:+ ":" +:+ jsonString (snd m).

Fixpoint join (sep : string) (l : list string) : string :=
  match l with
  | [] => EmptyString
  | [x] => x
  | x :: rest => x +:+ sep +:+ join sep rest
  end.

Definition object_text (ms : list (string * string)) : string :=
  "{" +:+ join "," (member_text <$> ms) +:+ "}".

(** [json.NewEncoder(w).Encode(data)]: the value, a newline, one write. *)
Definition Encode (w : W) (data : info) : W * option error :=
  let '(w', (_, err)) := Write w (object_text (members data) +:+ newline) in
  (w', err).

Definition JSONVersionPrinter (version commit date : string) : VersionPrinter W :=
  let data := {| Version := version; Commit := commit; Date := date |} in
  fun w =>
    match w with
    | None => (None, Some NilWriterReceived)
    | Some w =>
        let '(w', err) := Encode w data in
        (Some w', err)
    end.
End version.

(** ** Process environment

    What one run of the program sees outside its own memory: the arguments
    after the program name ([os.Args[1:]]), the environment variables
    ([os.LookupEnv]), and for every path what viper's [ReadInConfig] gives
    once that path is the config file: the settings of the file, keys in
    lower case and flattened with ".", or viper's error. Of that error
    the package only asks whether it is a [ConfigFileNotFoundError];
    [readFrom] below gives the error viper has for each file. *)
Record World := {
  Args : list string;
  Environ : gmap string string;
  ReadFile : string → gmap string Setting + error;
}.

(** ** [strings] and [strconv] *)

Module strings.
Definition upper (c : ascii) : ascii :=
  let n := nat_of_ascii c in
  if (97 <=? n)%nat && (n <=? 122)%nat then ascii_of_nat (n - 32) else c.

Fixpoint map_bytes (f : ascii → ascii) (s : string) : string :=
  match s with
  | EmptyString => EmptyString
  | String c r => String (f c) (map_bytes f r)
  end.

(** [strings.ToUpper] on the ASCII letters. *)
Definition ToUpper : string → string := map_bytes upper.

(** [strings.NewReplacer(".", "_").Replace]. *)
Definition ReplaceDots : string → string :=
  map_bytes (fun c => if Ascii.eqb c "." then "_"%char else c).

Definition HasPrefix (s p : string) : bool := String.prefix p s.

(** [strings.SplitN(s, "=", 2)]: the text before the first [=] and, when
    there is one, the text after it. *)
Fixpoint SplitEq (s : string) : string * option string :=
  match s with
  | EmptyString => (EmptyString, None)
  | String c r =>
      if Ascii.eqb c "=" then (EmptyString, Some r)
      else let '(a, b) := SplitEq r in (String c a, b)
  end.
End strings.

Module strconv.
Definition ParseBool (s : string) : option bool :=
  if bool_decide (s ∈ ["1"; "t"; "T"; "TRUE"; "true"; "True"]) then Some true
  else if bool_decide (s ∈ ["0"; "f"; "F"; "FALSE"; "false"; "False"]) then Some false
  else None.

Definition FormatBool (b : bool) : string := if b then "true" else "false".
End strconv.

#[export] Instance ValueKind_eq_dec : EqDecision ValueKind.
Proof. solve_decision. Defined.
#[export] Instance Kind_eq_dec : EqDecision Kind.
Proof. solve_decision. Defined.
#[export] Instance error_eq_dec : EqDecision error.
Proof. solve_decision. Defined.
#[export] Instance Setting_eq_dec : EqDecision Setting.
Proof. solve_decision. Defined.

(** ** pflag: the flag set and its parser *)

Module pflag.
Inductive ValueType := stringValue | boolValue.

Record Flag := {
  Name : string;
  Shorthand : string;
  Type_ : ValueType;
  Value : string;
  DefValue : string;
  NoOptDefVal : string;
  Changed : bool;
}.

(** The defined flags in order of definition, and the arguments left
    over after parsing. *)
Record FlagSet := { formal : list Flag; args : list string }.

Definition NewFlagSet : FlagSet := {| formal := []; args := [] |}.

Definition AddFlag (fl : Flag) (f : FlagSet) : FlagSet :=
  {| formal := formal f ++ [fl]; args := args f |}.

Definition StringP (name shorthand value : string) : FlagSet → FlagSet :=
  AddFlag {| Name := name; Shorthand := shorthand; Type_ := stringValue;
             Value := value; DefValue := value;
             NoOptDefVal := EmptyString; Changed := false |}.

Definition BoolP (name shorthand : string) (value : bool) : FlagSet → FlagSet :=
  AddFlag {| Name := name; Shorthand := shorthand; Type_ := boolValue;
             Value := strconv.FormatBool value;
             DefValue := strconv.FormatBool value;
             NoOptDefVal := "true"; Changed := false |}.

Definition Lookup (f : FlagSet) (name : string) : option Flag :=
  find (fun fl => String.eqb (Name fl) name) (formal f).

Definition ShorthandLookup (f : FlagSet) (c : ascii) : option Flag :=
  find (fun fl => String.eqb (Shorthand fl) (String c EmptyString)) (formal f).

(** [FlagSet.Changed]. *)
Definition IsChanged (f : FlagSet) (name : string) : bool :=
  match Lookup f name with
  | Some fl => Changed fl
  | None => false
  end.

(** [FlagSet.GetBool]: the flag must exist and be a bool. *)
Definition GetBool (f : FlagSet) (name : string) : bool + error :=
  match Lookup f name with
  | None => inr (Foreign ("flag accessed but not defined: " +:+ name))
  | Some fl =>
      match Type_ fl with
      | boolValue =>
          match strconv.ParseBool (Value fl) with
          | Some b => inl b
          | None => inr (Foreign "strconv.ParseBool: invalid syntax")
          end
      | stringValue =>
          inr (Foreign ("trying to get bool value of flag of type string"))
      end
  end.

(** [Value.Set] of the flag's type: the text the flag holds afterwards. *)
Definition setValue (t : ValueType) (value : string) : option string :=
  match t with
  | stringValue => Some value
  | boolValue => strconv.FormatBool <$> strconv.ParseBool value
  end.

Definition ErrHelp : error := Foreign "pflag: help requested".

(** [FlagSet.Set]. *)
Definition Set_ (f : FlagSet) (name value : string) : FlagSet + error :=
  match Lookup f name with
  | None => inr (Foreign ("no such flag -" +:+ name))
  | Some fl =>
      match setValue (Type_ fl) value with
      | None =>
          inr (Foreign ("invalid argument " +:+ value +:+ " for --" +:+ name +:+ " flag"))
      | Some txt =>
          inl {| formal :=
                   (fun g => if String.eqb (Name g) name
                             then {| Name := Name g; Shorthand := Shorthand g;
                                     Type_ := Type_ g; Value := txt;
                                     DefValue := DefValue g;
                                     NoOptDefVal := NoOptDefVal g;
                                     Changed := true |}
                             else g) <$> formal f;
                 args := args f |}
      end
  end.

Definition withTaken (taken : bool) (r : FlagSet + error) : FlagSet * bool + error :=
  match r with
  | inl f => inl (f, taken)
  | inr e => inr e
  end.

(** [parseLongArg] on the text after the two dashes. [next] is the
    argument that follows, if any; the boolean tells whether it was taken
    as the flag's value. *)
Definition parseLongArg (f : FlagSet) (s : string) (next : option string)
  : FlagSet * bool + error :=
  match s with
  | EmptyString => inr (Foreign "bad flag syntax: --")
  | String c _ =>
      if Ascii.eqb c "-" || Ascii.eqb c "="
      then inr (Foreign ("bad flag syntax: --" +:+ s))
      else
        let '(name, inline) := strings.SplitEq s in
        match Lookup f name with
        | None =>
            if String.eqb name "help" then inr ErrHelp
            else inr (Foreign ("unknown flag: --" +:+ name))
        | Some fl =>
            match inline with
            | Some value => withTaken false (Set_ f name value)
            | None =>
                if negb (String.eqb (NoOptDefVal fl) EmptyString)
                then withTaken false (Set_ f name (NoOptDefVal fl))
                else match next with
                     | Some value => withTaken true (Set_ f name value)
                     | None =>
                         inr (Foreign ("flag needs an argument: --" +:+ name))
                     end
            end
        end
  end.

(** [parseShortArg]: the loop over a group of shorthand letters, each
    round being [parseSingleShortArg]. *)
Fixpoint parseShortArg (f : FlagSet) (shorthands : string) (next : option string)
  : FlagSet * bool + error :=
  match shorthands with
  | EmptyString => inl (f, false)
  | String c rest =>
      if strings.HasPrefix shorthands "test." then inl (f, false)
      else
        match ShorthandLookup f c with
        | None =>
            if Ascii.eqb c "h" then inr ErrHelp
            else inr (Foreign ("unknown shorthand flag: " +:+ String c EmptyString
                                 +:+ " in -" +:+ shorthands))
        | Some fl =>
            match rest with
            | String "=" (String d value') =>
                withTaken false (Set_ f (Name fl) (String d value'))
            | _ =>
                if negb (String.eqb (NoOptDefVal fl) EmptyString)
                then match Set_ f (Name fl) (NoOptDefVal fl) with
                     | inl f' => parseShortArg f' rest next
                     | inr e => inr e
                     end
                else match rest with
                     | String _ _ =>
                         withTaken false (Set_ f (Name fl) rest)
                     | EmptyString =>
                         match next with
                         | Some value =>
                             withTaken true (Set_ f (Name fl) value)
                         | None =>
                             inr (Foreign ("flag needs an argument: "
                                             +:+ String c EmptyString
                                             +:+ " in -" +:+ shorthands))
                         end
                     end
            end
        end
  end.

Definition addArg (f : FlagSet) (l : list string) : FlagSet :=
  {| formal := formal f; args := args f ++ l |}.

(** [parseArgs], for an interspersed flag set (the default). *)
Fixpoint parseArgs (f : FlagSet) (arguments : list string) : FlagSet + error :=
  match arguments with
  | [] => inl f
  | s :: rest =>
      match s with
      | String "-" (String "-" EmptyString) => inl (addArg f rest)
      | String "-" (String c body) =>
          match (if Ascii.eqb c "-"
                 then parseLongArg f body (head rest)
                 else parseShortArg f (String c body) (head rest)) with
          | inr e => inr e
          | inl (f', taken) =>
              match taken, rest with
              | true, _ :: rest' => parseArgs f' rest'
              | _, _ => parseArgs f' rest
              end
          end
      | _ => parseArgs (addArg f [s]) rest
      end
  end.

(** [FlagSet.Parse] with [ContinueOnError], as cobra sets it. When it
    fails the flags it had set so far are of no further use to a caller
    that returns on the error. *)
Definition Parse (f : FlagSet) (arguments : list string) : FlagSet + error :=
  parseArgs {| formal := formal f; args := [] |} arguments.
End pflag.

(** ** Effects

    What a call does beyond its results is threaded as a state: the sink
    behind [writer], the structure behind [cfg], and the actions taken on
    the outside, oldest first. *)
Inductive Event :=
| FlagsParsed (arguments : list string)    (* os.Args handed to the flag parser *)
| HelpShown                                (* cobra writes the help text to its own output *)
| ErrorShown (e : error)                   (* cobra writes the error and the usage to its own output *)
| VersionPrinterCalled                     (* printVersion(writer) *)
| ConfigFileSet (path : string)            (* v.SetConfigFile *)
| ConfigRead (path : string)               (* v.ReadInConfig: the file system is accessed *)
| Unmarshalled.                            (* v.Unmarshal(cfg) *)

#[export] Instance Event_eq_dec : EqDecision Event.
Proof. solve_decision. Defined.

Record State (W D : Type) := mkState {
  sink : option W;
  dest : D;
  trace : list Event;
}.
Arguments mkState {W D}.
Arguments sink {W D}.
Arguments dest {W D}.
Arguments trace {W D}.

Definition M (W D A : Type) : Type := State W D → A * State W D.

Definition ret {W D A} (a : A) : M W D A := fun st => (a, st).

Definition bind {W D A B} (c : M W D A) (k : A → M W D B) : M W D B :=
  fun st => let '(a, st') := c st in k a st'.

Notation "'let*' x := c 'in' k" := (bind c (fun x => k))
  (at level 10, x pattern, c at level 100, k at level 200).
Notation "c ;; k" := (bind c (fun _ => k))
  (at level 100, k at level 200, right associativity).

Definition emit {W D} (e : Event) : M W D unit :=
  fun st => (tt, mkState (sink st) (dest st) (trace st ++ [e])).

(** The interface value [writer]: nil when the state holds no sink. *)
Definition theWriter {W D} : M W D (option W) := fun st => (sink st, st).

(** [mapstructure] decoding of merged settings into a value of type [D],
    the type [cfg] points to: the value afterwards (fields decoded before a
    failure stay written) and the error. *)
Class Decoder (D : Type) := Decode : gmap string Setting → D → D * option error.

(** ** cast and viper *)

Module cast.
Definition ToBool (v : option Setting) : bool :=
  match v with
  | Some (VBool b) => b
  | Some (VString s) => default false (strconv.ParseBool s)
  | Some (VInt n) => negb (n =? 0)%Z
  | None => false
  end.

Definition ToString (v : option Setting) : string :=
  match v with
  | Some (VString s) => s
  | Some (VBool b) => strconv.FormatBool b
  | Some (VInt n) => pretty n
  | None => EmptyString
  end.
End cast.

Module viper.
Record Viper := mkViper {
  envPrefix : string;
  envKeyReplacer : bool;              (* the replacer of "." by "_" is installed *)
  automaticEnvApplied : bool;
  pflags : gmap string string;        (* key to the name of the flag bound to it *)
  configFile : string;
  config : gmap string Setting;       (* the file's settings, keys flattened with "." *)
}.

Definition New : Viper := mkViper EmptyString false false ∅ EmptyString ∅.

Definition SetEnvPrefix (v : Viper) (p : string) : Viper :=
  mkViper p (envKeyReplacer v) (automaticEnvApplied v) (pflags v)
          (configFile v) (config v).

Definition SetEnvKeyReplacer (v : Viper) : Viper :=
  mkViper (envPrefix v) true (automaticEnvApplied v) (pflags v)
          (configFile v) (config v).

Definition AutomaticEnv (v : Viper) : Viper :=
  mkViper (envPrefix v) (envKeyReplacer v) true (pflags v)
          (configFile v) (config v).

(** [BindPFlag]: refuses a nil flag. *)
Definition BindPFlag (v : Viper) (key : string) (flag : option pflag.Flag)
  : Viper + error :=
  match flag with
  | None => inr (Foreign ("flag for " +:+ key +:+ " is nil"))
  | Some fl =>
      inl (mkViper (envPrefix v) (envKeyReplacer v) (automaticEnvApplied v)
                   (<[key := pflag.Name fl]> (pflags v))
                   (configFile v) (config v))
  end.

(** [SetConfigFile]: an empty path leaves the setting as it is. *)
Definition SetConfigFile (v : Viper) (path : string) : Viper :=
  if bool_decide (path = EmptyString) then v
  else mkViper (envPrefix v) (envKeyReplacer v) (automaticEnvApplied v)
               (pflags v) path (config v).

Definition mergeWithEnvPrefix (v : Viper) (key : string) : string :=
  if bool_decide (envPrefix v = EmptyString) then strings.ToUpper key
  else strings.ToUpper (envPrefix v +:+ "_" +:+ key).

(** [getEnv]: an empty variable counts as unset ([AllowEmptyEnv] is
    off). *)
Definition getEnv (v : Viper) (w : World) (name : string) : option string :=
  let name := if envKeyReplacer v then strings.ReplaceDots name else name in
  match Environ w !! name with
  | Some val => if bool_decide (val = EmptyString) then None else Some val
  | None => None
  end.

(** The flag bound to [key], as the parser left it. *)
Definition boundFlag (v : Viper) (fs : pflag.FlagSet) (key : string)
  : option pflag.Flag :=
  name ← pflags v !! key; pflag.Lookup fs name.

Definition flagValue (fl : pflag.Flag) : Setting :=
  match pflag.Type_ fl with
  | pflag.boolValue => VBool (cast.ToBool (Some (VString (pflag.Value fl))))
  | pflag.stringValue => VString (pflag.Value fl)
  end.

(** [find]: a changed flag, then the environment, then the file, then
    (for [Get]) the default of an unchanged flag. *)
Definition find (v : Viper) (fs : pflag.FlagSet) (w : World)
    (key : string) (flagDefault : bool) : option Setting :=
  match boundFlag v fs key with
  | Some fl =>
      if pflag.Changed fl then Some (flagValue fl)
      else
        match (if automaticEnvApplied v
               then getEnv v w (mergeWithEnvPrefix v key) else None) with
        | Some val => Some (VString val)
        | None =>
            match config v !! key with
            | Some x => Some x
            | None => if flagDefault then Some (flagValue fl) else None
            end
        end
  | None =>
      match (if automaticEnvApplied v
             then getEnv v w (mergeWithEnvPrefix v key) else None) with
      | Some val => Some (VString val)
      | None => config v !! key
      end
  end.

Definition Get (v : Viper) (fs : pflag.FlagSet) (w : World) (key : string)
  : option Setting := find v fs w key true.

Definition GetBool v fs w key : bool := cast.ToBool (Get v fs w key).
Definition GetString v fs w key : string := cast.ToString (Get v fs w key).

(** [AllKeys]: the bound flags and the keys of the file. Variables of
    the environment are looked up by key, never enumerated. *)
Definition AllKeys (v : Viper) : gset string := dom (pflags v) ∪ dom (config v).

(** [AllSettings]: every key of [AllKeys] with the value [Get] gives. *)
(** [errors.As(err, &notFound)] for [notFound] of type
    [ConfigFileNotFoundError]: the error or one it wraps is of that
    type. *)
Fixpoint IsConfigFileNotFound (e : error) : bool :=
  match e with
  | ConfigFileNotFoundError _ _ => true
  | BindConfigFlag c | BindVersionFlag c | PrintVersionFailed c
  | ReadMainConfigAt _ c | UnmarshalMainConfig c
  | BuildRootCommand c | ExecuteRootCommand c => IsConfigFileNotFound c
  | _ => false
  end.

Definition AllSettings (v : Viper) (fs : pflag.FlagSet) (w : World)
  : gmap string Setting :=
  map_imap (fun key _ => Get v fs w key) (gset_to_gmap tt (AllKeys v)).

Section effects.
Context {W D : Type} `{Decoder D}.

(** [ReadInConfig]: the file named by [configFile] (the empty path:
    viper's search of its default locations) is read and decoded. *)
Definition ReadInConfig (v : Viper) (w : World) : M W D (Viper * option error) :=
  emit (ConfigRead (configFile v));;
  match ReadFile w (configFile v) with
  | inr e => ret (v, Some e)
  | inl c =>
      ret (mkViper (envPrefix v) (envKeyReplacer v) (automaticEnvApplied v)
                    (pflags v) (configFile v) c, None)
  end.

(** [Unmarshal]: the merged settings are decoded into what [cfg] points
    to; mapstructure refuses a result that is no pointer or a nil one. *)
Definition Unmarshal (v : Viper) (fs : pflag.FlagSet) (w : World) (cfg : Any)
  : M W D (option error) :=
  emit Unmarshalled;;
  match cfg with
  | Value _ => ret (Some (Foreign "result must be a pointer"))
  | Pointer None => ret (Some (Foreign "result must be addressable (a pointer)"))
  | Pointer (Some _) =>
      fun st =>
        let '(d, e) := Decode (AllSettings v fs w) (dest st) in
        (e, mkState (sink st) d (trace st))
  end.
End effects.
End viper.

(** ** cobra: running a root command without subcommands

    [Execute] is the run of the root command, which is what cobra makes
    of every command line but those it hands to a command of its own:
    before it looks for the command to run, cobra adds the commands
    [__complete] (also called [__completeNoDesc]) and [completion] to the
    root command when the first argument that is not a flag names one of
    them, and then runs that command on the rest. What these commands do
    is not part of the embedding: [ownCommands] names them, and the
    properties of [Load] that depend on the root command being the one
    that runs are stated for the command lines without these names. *)

Module cobra.
Section command.
Context {W D : Type}.

(** The hooks receive the command; here they receive its flag set as
    the parser left it, through which the bound flags are read. *)
Record Command := {
  Use : string;
  Short : string;
  Long : string;
  Flags : pflag.FlagSet;
  PreRunE : option (pflag.FlagSet → list string → M W D (option error));
  Run : option (pflag.FlagSet → list string → M W D unit);
}.

(** The commands cobra adds on its own: the shell-completion request
    under its two names, and the generator of completion scripts. *)
Definition ownCommands : list string :=
  ["__complete"; "__completeNoDesc"; "completion"].

(** [InitDefaultHelpFlag]: adds [--help]/[-h] unless the command has a
    flag of that name. *)
Definition InitDefaultHelpFlag (f : pflag.FlagSet) : pflag.FlagSet :=
  match pflag.Lookup f "help" with
  | None => pflag.BoolP "help" "h" false f
  | Some _ => f
  end.

(** [execute]: parse, answer a help request before anything else, then
    the pre-run hook, then the command. *)
Definition execute (c : Command) (a : list string)
  : M W D (pflag.FlagSet * option error) :=
  let fs := InitDefaultHelpFlag (Flags c) in
  emit (FlagsParsed a);;
  match pflag.Parse fs a with
  | inr e => ret (fs, Some e)
  | inl fs =>
      match pflag.GetBool fs "help" with
      | inr e => ret (fs, Some e)
      | inl true => ret (fs, Some pflag.ErrHelp)
      | inl false =>
          match Run c with
          | None => ret (fs, Some pflag.ErrHelp)
          | Some run =>
              let* err := match PreRunE c with
                          | Some pre => pre fs (pflag.args fs)
                          | None => ret None
                          end in
              match err with
              | Some e => ret (fs, Some e)
              | None => run fs (pflag.args fs);; ret (fs, None)
              end
          end
      end
  end.

(** [Execute]: runs on [os.Args[1:]]; a help request prints the help
    and is no error, any other error is printed with the usage and
    returned. The flag set returned is the command's after the run. *)
Definition Execute (c : Command) (w : World)
  : M W D (pflag.FlagSet * option error) :=
  let* (fs, err) := execute c (Args w) in
  match err with
  | None => ret (fs, None)
  | Some e =>
      if bool_decide (e = pflag.ErrHelp)
      then emit HelpShown;; ret (fs, None)
      else emit (ErrorShown e);; ret (fs, Some e)
  end.
End command.
Arguments Command : clear implicits.
End cobra.

(** ** The package: config.go and loader.go *)

Inductive LoadResult :=
| LoadResultContinue
| LoadResultStop.

#[export] Instance LoadResult_eq_dec : EqDecision LoadResult.
Proof. solve_decision. Defined.

Record Loader := {
  name : string;
  short : string;
  long : string;
  configPath : string;
  envPrefix : string;
}.

Definition NewLoader (name short long configPath envPrefix : string) : Loader :=
  {| configPath := configPath; envPrefix := envPrefix;
     name := name; short := short; long := long |}.

Section loader.
Context {W D : Type} `{Decoder D}.

(** [printVersion(writer)]: the printer works on the sink. *)
Definition callPrinter (printVersion : VersionPrinter W) : M W D (option error) :=
  fun st =>
    let '(s, err) := printVersion (sink st) in
    (err, mkState s (dest st) (trace st)).

(** The pre-run hook [buildRootCommand] installs. *)
Definition PreRunE (l : Loader) (w : World) (v : viper.Viper) (cfg : Any)
    (printVersion : VersionPrinter W)
    (fs : pflag.FlagSet) (_ : list string) : M W D (option error) :=
  let versionFlag := viper.GetBool v fs w "version" in
  if versionFlag then
    emit VersionPrinterCalled;;
    let* err := callPrinter printVersion in
    match err with
    | Some e => ret (Some (PrintVersionFailed e))
    | None => ret None
    end
  else
    let configPath :=
      let fromViper := viper.GetString v fs w "config" in
      if bool_decide (fromViper = EmptyString) then l.(configPath)
      else fromViper in
    emit (ConfigFileSet configPath);;
    let v := viper.SetConfigFile v configPath in
    let* (v, err) := viper.ReadInConfig v w in
    match err with
    | Some e =>
        if viper.IsConfigFileNotFound e
        then ret (Some (ConfigFileNotFoundAt configPath))
        else ret (Some (ReadMainConfigAt configPath e))
    | None =>
        let* err := viper.Unmarshal v fs w cfg in
        match err with
        | Some e => ret (Some (UnmarshalMainConfig e))
        | None => ret None
        end
    end.

Definition buildRootCommand (l : Loader) (w : World) (v : viper.Viper)
    (cfg : Any) (printVersion : VersionPrinter W)
  : cobra.Command W D + error :=
  let flags := pflag.NewFlagSet in
  let flags := pflag.StringP "config" "c" EmptyString flags in
  let flags := pflag.BoolP "version" "v" false flags in
  let v := viper.SetEnvPrefix v l.(envPrefix) in
  let v := viper.SetEnvKeyReplacer v in
  let v := viper.AutomaticEnv v in
  match viper.BindPFlag v "config" (pflag.Lookup flags "config") with
  | inr err => inr (BindConfigFlag err)
  | inl v =>
      match viper.BindPFlag v "version" (pflag.Lookup flags "version") with
      | inr err => inr (BindVersionFlag err)
      | inl v =>
          inl {| cobra.Use := l.(name);
                 cobra.Short := l.(short);
                 cobra.Long := l.(long);
                 cobra.Flags := flags;
                 cobra.PreRunE := Some (PreRunE l w v cfg printVersion);
                 cobra.Run := Some (fun _ _ => ret tt) |}
      end
  end.

(** [Load]. The argument [writer] is the sink of the state the call
    starts in, and [cfg] refers to its [dest]. *)
Definition Load (l : Loader) (w : World) (cfg : Any)
    (printVersion : option (VersionPrinter W))
  : M W D (LoadResult * option error) :=
  let* writer := theWriter in
  if negb (bool_decide (KindOf cfg = Ptr))
  then ret (LoadResultStop, Some (CfgMustBePointer (KindOf cfg)))
  else
    match printVersion with
    | None => ret (LoadResultStop, Some PrintVersionMustBeFunction)
    | Some printVersion =>
        match writer with
        | None => ret (LoadResultStop, Some WriterMustBeNonNil)
        | Some _ =>
            let v := viper.New in
            match buildRootCommand l w v cfg printVersion with
            | inr err => ret (LoadResultStop, Some (BuildRootCommand err))
            | inl cmd =>
                let* (flags, err) := cobra.Execute cmd w in
                match err with
                | Some err => ret (LoadResultStop, Some (ExecuteRootCommand err))
                | None =>
                    if pflag.IsChanged flags "help" || pflag.IsChanged flags "version"
                    then ret (LoadResultStop, None)
                    else ret (LoadResultContinue, None)
                end
            end
        end
    end.

(** One call of [Load] from a fresh trace. *)
Definition call (l : Loader) (w : World) (cfg : Any)
    (printVersion : option (VersionPrinter W)) (writer : option W) (d : D)
  : (LoadResult * option error) * State W D :=
  Load l w cfg printVersion (mkState writer d []).
End loader.

(** ** The destination of the test suite

    [testConfig] of loader_test.go, with mapstructure's weakly typed
    decoding of its two tagged fields: a key that is absent leaves the field
    as it is, a value of another type is converted, and a field that cannot
    be converted is reported while the others are still written. Text is read
    as an integer in base 10 (the empty text as 0). *)
Record testConfig := { LogLevel : string; Port : Z }.

Definition digit (c : ascii) : option Z :=
  let n := nat_of_ascii c in
  if (48 <=? n)%nat && (n <=? 57)%nat then Some (Z.of_nat (n - 48)) else None.

Fixpoint parseDigits (acc : Z) (s : string) : option Z :=
  match s with
  | EmptyString => Some acc
  | String c r =>
      match digit c with
      | Some d => parseDigits (10 * acc + d) r
      | None => None
      end
  end.

Definition parseInt (s : string) : option Z :=
  match s with
  | EmptyString => Some 0%Z
  | String "-" (String c r) => Z.opp <$> parseDigits 0 (String c r)
  | String "+" (String c r) => parseDigits 0 (String c r)
  | String "-" EmptyString | String "+" EmptyString => None
  | _ => parseDigits 0 s
  end.

Definition decodeString (v : Setting) : string :=
  match v with
  | VString s => s
  | VInt n => pretty n
  | VBool b => if b then "1" else "0"
  end.

Definition decodeInt (v : Setting) : option Z :=
  match v with
  | VInt n => Some n
  | VBool b => Some (if b then 1 else 0)%Z
  | VString s => parseInt s
  end.

#[export] Instance testConfig_Decoder : Decoder testConfig :=
  fun m d =>
    let logLevel :=
      match m !! "log_level" with
      | Some v => decodeString v
      | None => LogLevel d
      end in
    match m !! "port" with
    | None => ({| LogLevel := logLevel; Port := Port d |}, None)
    | Some v =>
        match decodeInt v with
        | Some n => ({| LogLevel := logLevel; Port := n |}, None)
        | None =>
            ({| LogLevel := logLevel; Port := Port d |},
             Some (Foreign "cannot parse 'port' as int"))
        end
    end.

(** ** Vocabulary of the properties *)

(** The flag set of the root command when the parser starts: the two flags
    [buildRootCommand] defines and the help flag cobra adds. *)
Definition rootFlags : pflag.FlagSet :=
  cobra.InitDefaultHelpFlag
    (pflag.BoolP "version" "v" false
       (pflag.StringP "config" "c" EmptyString pflag.NewFlagSet)).

(** The viper instance the pre-run hook closes over. *)
Definition boundViper (l : Loader) : viper.Viper :=
  viper.mkViper l.(envPrefix) true true
    (<["version" := "version"]> (<["config" := "config"]> ∅))
    EmptyString ∅.

(** The outcome of parsing the arguments of the process. *)
Definition parsedFlags (w : World) : pflag.FlagSet + error :=
  pflag.Parse rootFlags (Args w).

(** The help flag and the version flag as given on the command line. *)
Definition helpFlag (fs : pflag.FlagSet) : bool :=
  bool_decide (pflag.GetBool fs "help" = inl true).

Definition versionGiven (fs : pflag.FlagSet) : bool :=
  bool_decide (pflag.GetBool fs "version" = inl true).

(** [versionFlag] of the pre-run hook: the value viper resolves for the
    key [version]. *)
Definition versionFlag (l : Loader) (w : World) (fs : pflag.FlagSet) : bool :=
  viper.GetBool (boundViper l) fs w "version".

(** The text the [--config] flag holds, and whether it was given. *)
Definition configFlag (fs : pflag.FlagSet) : string :=
  match pflag.Lookup fs "config" with
  | Some fl => pflag.Value fl
  | None => EmptyString
  end.

Definition configGiven (fs : pflag.FlagSet) : bool := pflag.IsChanged fs "config".

(** The environment variable viper consults for [key], and the override of
    the config path it holds. *)
Definition envName (l : Loader) (key : string) : string :=
  strings.ReplaceDots (viper.mergeWithEnvPrefix (boundViper l) key).

Definition envConfig (l : Loader) (w : World) : string :=
  default EmptyString (Environ w !! envName l "config").

(** The value viper takes from the environment for [key]: that of the
    variable, unless it is unset or empty. *)
Definition envValue (l : Loader) (w : World) (key : string) : option string :=
  viper.getEnv (boundViper l) w (viper.mergeWithEnvPrefix (boundViper l) key).

(** The path the pre-run hook hands to [SetConfigFile]. *)
Definition resolvedPath (l : Loader) (w : World) (fs : pflag.FlagSet) : string :=
  let fromViper := viper.GetString (boundViper l) fs w "config" in
  if bool_decide (fromViper = EmptyString) then l.(configPath) else fromViper.

(** The viper instance once the file at the resolved path was read. *)
Definition loadedViper (l : Loader) (settings : gmap string Setting) (path : string)
  : viper.Viper :=
  viper.mkViper l.(envPrefix) true true
    (<["version" := "version"]> (<["config" := "config"]> ∅))
    path settings.

(** A command line that cobra resolves to the root command whatever
    the flags are: none of its arguments is the name of one of cobra's
    own commands. *)
Definition ownCommand (s : string) : bool :=
  existsb (String.eqb s) cobra.ownCommands.

Definition rootCommandLine (arguments : list string) : Prop :=
  forallb (fun a => negb (ownCommand a)) arguments = true.


(** A text of ASCII bytes only. *)
Fixpoint isASCII (t : string) : bool :=
  match t with
  | EmptyString => true
  | String c rest => (nat_of_ascii c <? 128)%nat && isASCII rest
  end.

(** How often the version printer was called in a run. *)
Definition printerCalls (t : list Event) : nat :=
  length (filter (fun e => e = VersionPrinterCalled) t).

(** A run touched the file system, or parsed the arguments. *)
Definition touchedFiles (t : list Event) : Prop := ∃ p, ConfigRead p ∈ t.
Definition parsedArguments (t : list Event) : Prop := ∃ a, FlagsParsed a ∈ t.

(** The flag set in terms of what the parser can change. *)
Definition flagsOf (c : string) (cc : bool) (v vc h hc : bool) (pos : list string)
  : pflag.FlagSet :=
  {| pflag.formal :=
       [ {| pflag.Name := "config"; pflag.Shorthand := "c";
            pflag.Type_ := pflag.stringValue; pflag.Value := c;
            pflag.DefValue := EmptyString; pflag.NoOptDefVal := EmptyString;
            pflag.Changed := cc |};
         {| pflag.Name := "version"; pflag.Shorthand := "v";
            pflag.Type_ := pflag.boolValue; pflag.Value := strconv.FormatBool v;
            pflag.DefValue := "false"; pflag.NoOptDefVal := "true";
            pflag.Changed := vc |};
         {| pflag.Name := "help"; pflag.Shorthand := "h";
            pflag.Type_ := pflag.boolValue; pflag.Value := strconv.FormatBool h;
            pflag.DefValue := "false"; pflag.NoOptDefVal := "true";
            pflag.Changed := hc |} ];
     pflag.args := pos |}.

(** An unchanged flag holds its default. *)
Definition consistent (c : string) (cc v vc h hc : bool) : Prop :=
  (cc = false → c = EmptyString) ∧ (vc = false → v = false) ∧ (hc = false → h = false).

(** What the parser keeps true of the root command's flag set. *)
Definition shaped (fs : pflag.FlagSet) : Prop :=
  ∃ c cc v vc h hc pos,
    fs = flagsOf c cc v vc h hc pos ∧ consistent c cc v vc h hc.

(** ** Files as viper reads them

    A file system gives for a path the settings of the file there, or
    the text of the decoder's error when the file does not parse.
    [readFrom] is viper's [ReadInConfig] over it. With no config file
    set (the empty path: [SetConfigFile] was not called, or with the
    empty text) viper searches the paths added with [AddConfigPath],
    here none, and reports a [ConfigFileNotFoundError]. With a config
    file set it reads that file, and a file that is not there gives the
    error of opening it, which is no [ConfigFileNotFoundError]. *)

Definition Files := gmap string (gmap string Setting + string).

Definition readFrom (files : Files) (path : string) : gmap string Setting + error :=
  if String.eqb path EmptyString
  then inr (ConfigFileNotFoundError "config" "[]")
  else match files !! path with
       | None => inr (Foreign ("open " +:+ path +:+ ": no such file or directory"))
       | Some (inl settings) => inl settings
       | Some (inr msg) => inr (Foreign msg)
       end.

(** ** Fixtures: the set-up of loader_test.go *)

Definition testLoader : Loader :=
  NewLoader "testapp" "Test App" EmptyString "config.yaml" "TESTAPP".

(** The file of the valid cases: [{log_level: info, port: 8080}]. *)
Definition defaultSettings : gmap string Setting :=
  <["log_level" := VString "info"]> (<["port" := VInt 8080]> ∅).

(** A file system with that file at [config.yaml], a file that does not
    parse at [invalid_config.yaml], and nothing else. *)
Definition testFileSystem : Files :=
  <["config.yaml" := inl defaultSettings]>
    (<["invalid_config.yaml" :=
         inr "yaml: mapping values are not allowed in this context"]> ∅).

Definition testFiles : string → gmap string Setting + error :=
  readFrom testFileSystem.

Definition testWorld (arguments : list string) (env : gmap string string) : World :=
  {| Args := arguments; Environ := env; ReadFile := testFiles |}.

Definition emptyConfig : testConfig := {| LogLevel := EmptyString; Port := 0 |}.

Definition emptyBuffer : Buffer := {| contents := EmptyString |}.

(** [Load(cfg, PlainVersionPrinter("v1.0.0"), &bytes.Buffer{})] with [cfg]
    pointing to an empty [testConfig]. *)
Definition testCall (l : Loader) (w : World)
  : (LoadResult * option error) * State Buffer testConfig :=
  call l w (Pointer (Some Struct)) (Some (PlainVersionPrinter "v1.0.0"))
       (Some emptyBuffer) emptyConfig.

(** mapstructure cannot decode a map of settings into an integer. *)
#[export] Instance Z_Decoder : Decoder Z :=
  fun _ n =>
    (n, Some (Foreign "expected type 'int', got unconvertible type 'map[string]interface {}'")).

(** ** Sentences of the specification that the code does not bear out,
       as they are written *)

Section as_stated.
Context {W D : Type} `{Decoder D}.
Variables (l : Loader) (w : World) (elem : option ValueKind)
  (pv : VersionPrinter W) (s : W) (d : D).

Let r := call l w (Pointer elem) (Some pv) (Some s) d.

(** What a run on the version branch looks like: one call of the printer
    on the sink, nothing of the config path before or after it, and
    [Stop] with the printer's error wrapped, if any. *)
Definition version_run : Prop :=
  printerCalls (trace r.2) = 1%nat
  ∧ sink r.2 = (pv (Some s)).1
  ∧ (∀ p, (ConfigFileSet p ∉ trace r.2) ∧ (ConfigRead p ∉ trace r.2))
  ∧ r.1 = (LoadResultStop,
           (fun e => ExecuteRootCommand (PrintVersionFailed e)) <$> (pv (Some s)).2).

(** C2 as written: whenever the version flag is set. *)
Definition version_short_circuit_as_stated : Prop :=
  ∀ fs, parsedFlags w = inl fs → versionGiven fs = true → version_run.

(** C6 as written: help stops the run without a file being loaded, and
    the printer is not called unless the version flag is set too, which
    then has priority. *)
Definition help_short_circuit_as_stated : Prop :=
  ∀ fs, parsedFlags w = inl fs → helpFlag fs = true →
    r.1 = (LoadResultStop, None)
    ∧ ¬ touchedFiles (trace r.2)
    ∧ printerCalls (trace r.2) = (if versionGiven fs then 1 else 0)%nat.

End as_stated.

(** ** Vocabulary of the further properties *)

(** The same process with another command line. *)
Definition withArgs (w : World) (arguments : list string) : World :=
  {| Args := arguments; Environ := Environ w; ReadFile := ReadFile w |}.

(** An argument the parser takes as it stands: the empty text, a text not
    starting with a dash, or the single dash. *)
Definition positional (s : string) : bool :=
  match s with
  | String "-" (String _ _) => false
  | _ => true
  end.

(** A text as it appears in the name of a variable: upper case, dots as
    underscores. *)
Definition shout (t : string) : string := strings.ReplaceDots (strings.ToUpper t).

Definition isConfigRead (e : Event) : bool :=
  match e with
  | ConfigRead _ => true
  | _ => false
  end.

(** How often a config file was read in a run. *)
Definition configReads (t : list Event) : nat :=
  length (filter (fun e => isConfigRead e = true) t).

(** What a call leaves to its caller: the results, the sink and the
    destination. *)
Definition outcome {W D : Type} (r : (LoadResult * option error) * State W D)
  : (LoadResult * option error) * option W * D :=
  (r.1, sink r.2, dest r.2).

(** The error a refused call reports: the first check that fails. *)
Definition refusal {W : Type} (cfg : Any) (printVersion : option (VersionPrinter W))
  : error :=
  match cfg, printVersion with
  | Value k, _ => CfgMustBePointer (Other k)
  | Pointer _, None => PrintVersionMustBeFunction
  | Pointer _, Some _ => WriterMustBeNonNil
  end.

(** ** The runs of Load *)

Section runs.
Context {W D : Type}.

(** The three runs of a command line that parses. *)
Inductive Run (l : Loader) (w : World) (elem : option ValueKind)
    (pv : VersionPrinter W) (s : W) (d : D) (fs : pflag.FlagSet)
  : (LoadResult * option error) * State W D → Prop :=
| HelpRun :
    helpFlag fs = true →
    Run l w elem pv s d fs
        ((LoadResultStop, None), mkState (Some s) d [FlagsParsed (Args w); HelpShown])
| VersionRun res shown :
    helpFlag fs = false →
    versionFlag l w fs = true →
    res.2 = (fun e => ExecuteRootCommand (PrintVersionFailed e)) <$> (pv (Some s)).2 →
    (∀ e, e ∈ shown → ∃ x, e = ErrorShown x) →
    Run l w elem pv s d fs
        (res, mkState (pv (Some s)).1 d
                      (FlagsParsed (Args w) :: VersionPrinterCalled :: shown))
| ConfigRun res d' rest :
    helpFlag fs = false →
    versionFlag l w fs = false →
    (∀ e, e ∈ rest → e = Unmarshalled ∨ ∃ x, e = ErrorShown x) →
    Run l w elem pv s d fs
        (res, mkState (Some s) d'
                      (FlagsParsed (Args w)
                         :: ConfigFileSet (resolvedPath l w fs)
                         :: ConfigRead (resolvedPath l w fs) :: rest)).

End runs.

(** * Properties *)

Section parser_facts.

Lemma rootFlags_flagsOf :
  rootFlags = flagsOf EmptyString false false false false false [].
Proof. reflexivity. Qed.

Lemma ParseBool_Format (b : bool) :
  strconv.ParseBool (strconv.FormatBool b) = Some b.
Proof. by destruct b. Qed.

Lemma Set_flagsOf c cc v vc h hc pos name value fs' :
  consistent c cc v vc h hc →
  pflag.Set_ (flagsOf c cc v vc h hc pos) name value = inl fs' →
  ∃ c' cc' v' vc' h' hc',
    fs' = flagsOf c' cc' v' vc' h' hc' pos ∧ consistent c' cc' v' vc' h' hc'.
Proof.
  intros (Hc & Hv & Hh). unfold pflag.Set_, pflag.Lookup.
  cbn [flagsOf pflag.formal find pflag.Name].
  destruct (String.eqb_spec "config" name) as [<-|Hn1].
  { cbn. intros [= <-]. exists value, true, v, vc, h, hc. split; [done|].
    repeat split; auto; discriminate. }
  destruct (String.eqb_spec "version" name) as [<-|Hn2].
  { cbn. destruct (strconv.ParseBool value) as [b|]; cbn; [|discriminate].
    intros [= <-]. exists c, cc, b, true, h, hc. split; [done|].
    repeat split; auto; discriminate. }
  destruct (String.eqb_spec "help" name) as [<-|Hn3].
  { cbn. destruct (strconv.ParseBool value) as [b|]; cbn; [|discriminate].
    intros [= <-]. exists c, cc, v, vc, b, true. split; [done|].
    repeat split; auto; discriminate. }
  discriminate.
Qed.

Lemma Set_shaped fs name value fs' :
  shaped fs → pflag.Set_ fs name value = inl fs' → shaped fs'.
Proof.
  intros (c & cc & v & vc & h & hc & pos & -> & Hok) HS.
  destruct (Set_flagsOf _ _ _ _ _ _ _ _ _ _ Hok HS)
    as (c' & cc' & v' & vc' & h' & hc' & -> & Hok').
  by exists c', cc', v', vc', h', hc', pos.
Qed.

Lemma withTaken_inl b r fs t :
  pflag.withTaken b r = inl (fs, t) → r = inl fs.
Proof. destruct r; cbn; congruence. Qed.

Lemma parseLongArg_shaped fs s next fs' t :
  shaped fs → pflag.parseLongArg fs s next = inl (fs', t) → shaped fs'.
Proof.
  intros Hs. unfold pflag.parseLongArg.
  destruct s as [|a s]; [discriminate|].
  destruct (_ || _); [discriminate|].
  destruct (strings.SplitEq (String a s)) as [nm inline].
  destruct (pflag.Lookup fs nm) as [fl|]; [|destruct (_ =? _)%string; discriminate].
  destruct inline as [value|].
  { intros HS%withTaken_inl. eauto using Set_shaped. }
  destruct (negb _).
  { intros HS%withTaken_inl. eauto using Set_shaped. }
  destruct next as [value|]; [|discriminate].
  intros HS%withTaken_inl. eauto using Set_shaped.
Qed.

Lemma parseShortArg_shaped shorthands : ∀ fs next fs' t,
  shaped fs → pflag.parseShortArg fs shorthands next = inl (fs', t) → shaped fs'.
Proof.
  induction shorthands as [|a rest IH]; intros fs next fs' t Hs.
  { cbn. by intros [= <- <-]. }
  cbn [pflag.parseShortArg].
  destruct (strings.HasPrefix _ _); [by intros [= <- <-]|].
  destruct (pflag.ShorthandLookup fs a) as [fl|];
    [|destruct (Ascii.eqb a "h"); discriminate].
  assert (Hrest :
    (if negb (pflag.NoOptDefVal fl =? EmptyString)%string
     then match pflag.Set_ fs (pflag.Name fl) (pflag.NoOptDefVal fl) with
          | inl f' => pflag.parseShortArg f' rest next
          | inr e => inr e
          end
     else match rest with
          | String _ _ => pflag.withTaken false (pflag.Set_ fs (pflag.Name fl) rest)
          | EmptyString =>
              match next with
              | Some value => pflag.withTaken true (pflag.Set_ fs (pflag.Name fl) value)
              | None =>
                  inr (Foreign ("flag needs an argument: " +:+ String a EmptyString
                                  +:+ " in -" +:+ String a rest))
              end
          end) = inl (fs', t) → shaped fs').
  { destruct (negb _).
    - destruct (pflag.Set_ fs _ _) as [f'|] eqn:HS; [|discriminate].
      intros Hp. eapply IH; [|exact Hp]. eauto using Set_shaped.
    - destruct rest.
      + destruct next; [|discriminate].
        intros HS%withTaken_inl. eauto using Set_shaped.
      + intros HS%withTaken_inl. eauto using Set_shaped. }
  destruct rest as [|b rest']; [exact Hrest|].
  destruct (Ascii.eqb_spec b "=") as [->|Hne].
  - destruct rest' as [|d value']; [exact Hrest|].
    intros HS%withTaken_inl. eauto using Set_shaped.
  - revert Hrest.
    destruct b as [[] [] [] [] [] [] [] []]; try (intros Hrest; exact Hrest).
    by destruct Hne.
Qed.

Lemma addArg_shaped fs l : shaped fs → shaped (pflag.addArg fs l).
Proof.
  intros (c & cc & v & vc & h & hc & pos & -> & Hok).
  by exists c, cc, v, vc, h, hc, (pos ++ l)%list.
Qed.

Lemma parseArgs_shaped (n : nat) : ∀ (arguments : list string) fs fs',
  (List.length arguments ≤ n)%nat → shaped fs →
  pflag.parseArgs fs arguments = inl fs' → shaped fs'.
Proof.
  induction n as [|n IH]; intros arguments fs fs' Hlen Hs.
  { destruct arguments; [|cbn in Hlen; lia]. cbn. by intros [= <-]. }
  destruct arguments as [|s rest]; [cbn; by intros [= <-]|].
  cbn in Hlen.
  assert (Hplain : pflag.parseArgs (pflag.addArg fs [s]) rest = inl fs' → shaped fs').
  { apply IH; [lia|by apply addArg_shaped]. }
  assert (Hflag : ∀ r,
    (∀ f' t, r = inl (f', t) → shaped f') →
    match r with
    | inr e => inr e
    | inl (f', taken) =>
        match taken, rest with
        | true, _ :: rest' => pflag.parseArgs f' rest'
        | _, _ => pflag.parseArgs f' rest
        end
    end = inl fs' → shaped fs').
  { intros [[f' t]|e] Hr; [|discriminate].
    specialize (Hr f' t eq_refl).
    destruct t, rest as [|x rest']; try (apply IH; [cbn in *; lia|done]). }
  cbn [pflag.parseArgs].
  destruct s as [|a s]; [exact Hplain|].
  destruct a as [[] [] [] [] [] [] [] []]; try exact Hplain.
  destruct s as [|c body]; [exact Hplain|].
  assert (Hgo :
    match (if Ascii.eqb c "-"
           then pflag.parseLongArg fs body (head rest)
           else pflag.parseShortArg fs (String c body) (head rest)) with
    | inr e => inr e
    | inl (f', taken) =>
        match taken, rest with
        | true, _ :: rest' => pflag.parseArgs f' rest'
        | _, _ => pflag.parseArgs f' rest
        end
    end = inl fs' → shaped fs').
  { apply Hflag. intros f' t. destruct (Ascii.eqb c "-").
    - eauto using parseLongArg_shaped.
    - eauto using parseShortArg_shaped. }
  destruct c as [[] [] [] [] [] [] [] []]; try exact Hgo.
  destruct body; [|exact Hgo].
  intros [= <-]. by apply addArg_shaped.
Qed.

Lemma Parse_shaped arguments fs :
  pflag.Parse rootFlags arguments = inl fs → shaped fs.
Proof.
  unfold pflag.Parse. apply (parseArgs_shaped (List.length arguments)); [done|].
  exists EmptyString, false, false, false, false, false, [].
  split; [reflexivity|]. by repeat split.
Qed.

End parser_facts.

Section hook_facts.
Context {W D : Type} `{Decoder D}.
Implicit Types (l : Loader) (w : World) (pv : VersionPrinter W)
  (fs : pflag.FlagSet) (st : State W D).

Lemma buildRootCommand_eq l w cfg pv :
  buildRootCommand (D:=D) l w viper.New cfg pv =
  inl {| cobra.Use := l.(name); cobra.Short := l.(short); cobra.Long := l.(long);
         cobra.Flags :=
           pflag.BoolP "version" "v" false
             (pflag.StringP "config" "c" EmptyString pflag.NewFlagSet);
         cobra.PreRunE := Some (PreRunE l w (boundViper l) cfg pv);
         cobra.Run := Some (fun _ _ => ret tt) |}.
Proof. reflexivity. Qed.

(** The hook on the version branch. *)
Lemma PreRunE_version l w cfg pv fs a st :
  versionFlag l w fs = true →
  PreRunE l w (boundViper l) cfg pv fs a st =
  (PrintVersionFailed <$> (pv (sink st)).2,
   mkState (pv (sink st)).1 (dest st) (trace st ++ [VersionPrinterCalled])).
Proof.
  unfold versionFlag, PreRunE. intros ->.
  unfold bind, emit, callPrinter, ret. cbn.
  destruct (pv (sink st)) as [s' [e|]]; reflexivity.
Qed.

Lemma SetConfigFile_bound l path :
  viper.SetConfigFile (boundViper l) path =
  viper.mkViper l.(envPrefix) true true
    (<["version" := "version"]> (<["config" := "config"]> ∅)) path ∅.
Proof.
  unfold viper.SetConfigFile. case_bool_decide as Hp; [by subst|done].
Qed.

(** The hook on the config branch. *)
Lemma PreRunE_config l w cfg pv fs a st :
  versionFlag l w fs = false →
  PreRunE l w (boundViper l) cfg pv fs a st =
  let path := resolvedPath l w fs in
  match ReadFile w path with
  | inr e =>
      (Some (if viper.IsConfigFileNotFound e then ConfigFileNotFoundAt path
             else ReadMainConfigAt path e),
       mkState (sink st) (dest st)
               (trace st ++ [ConfigFileSet path; ConfigRead path]))
  | inl settings =>
      match cfg with
      | Pointer (Some _) =>
          let r := Decode (viper.AllSettings (loadedViper l settings path) fs w)
                          (dest st) in
          (UnmarshalMainConfig <$> r.2,
           mkState (sink st) r.1
                   (trace st ++ [ConfigFileSet path; ConfigRead path; Unmarshalled]))
      | Pointer None =>
          (Some (UnmarshalMainConfig (Foreign "result must be addressable (a pointer)")),
           mkState (sink st) (dest st)
                   (trace st ++ [ConfigFileSet path; ConfigRead path; Unmarshalled]))
      | Value _ =>
          (Some (UnmarshalMainConfig (Foreign "result must be a pointer")),
           mkState (sink st) (dest st)
                   (trace st ++ [ConfigFileSet path; ConfigRead path; Unmarshalled]))
      end
  end.
Proof.
  unfold versionFlag, PreRunE. intros ->.
  fold (resolvedPath l w fs). cbn zeta.
  rewrite SetConfigFile_bound.
  unfold bind, emit, viper.ReadInConfig, viper.Unmarshal, bind, emit, ret.
  cbn [viper.configFile trace sink dest].
  destruct (ReadFile w (resolvedPath l w fs)) as [settings|e].
  - cbn. rewrite <- !app_assoc. cbn.
    destruct cfg as [k|[k|]]; cbn; try reflexivity.
    unfold loadedViper.
    destruct (Decode _ _) as [d' [e|]]; reflexivity.
  - cbn. rewrite <- !app_assoc. cbn.
    destruct (viper.IsConfigFileNotFound e); reflexivity.
Qed.

(** An error of the hook is never pflag's help request. *)
Lemma PreRunE_not_help l w cfg pv fs a st e st' :
  PreRunE l w (boundViper l) cfg pv fs a st = (Some e, st') →
  e ≠ pflag.ErrHelp.
Proof.
  destruct (versionFlag l w fs) eqn:Hv.
  - rewrite PreRunE_version by done.
    destruct (pv (sink st)) as [s' [e'|]]; cbn; intros [= <- <-]; discriminate.
  - rewrite PreRunE_config by done. cbn zeta.
    destruct (ReadFile w _) as [settings|e'].
    + destruct cfg as [k|[k|]]; cbn; try (intros [= <- <-]; discriminate).
      destruct (Decode _ _) as [d' [e'|]]; cbn; intros [= <- <-]; discriminate.
    + destruct (viper.IsConfigFileNotFound e'); intros [= <- <-]; discriminate.
Qed.

(** [Load] on valid arguments whose command line parses. *)
Lemma call_parsed l w elem pv (s : W) (d : D) fs :
  parsedFlags w = inl fs →
  call l w (Pointer elem) (Some pv) (Some s) d =
  if helpFlag fs
  then ((LoadResultStop, None), mkState (Some s) d [FlagsParsed (Args w); HelpShown])
  else
    let r := PreRunE l w (boundViper l) (Pointer elem) pv fs (pflag.args fs)
                     (mkState (Some s) d [FlagsParsed (Args w)]) in
    match r.1 with
    | Some e =>
        ((LoadResultStop, Some (ExecuteRootCommand e)),
         mkState (sink r.2) (dest r.2) (trace r.2 ++ [ErrorShown e]))
    | None =>
        ((if pflag.IsChanged fs "help" || pflag.IsChanged fs "version"
          then LoadResultStop else LoadResultContinue, None), r.2)
    end.
Proof.
  intros Hp. pose proof (Parse_shaped _ _ Hp)
    as (c & cc & v & vc & h & hc & pos & -> & (Hc & Hv & Hh)).
  unfold call, Load, theWriter, bind at 1. cbn [sink KindOf negb bool_decide].
  rewrite bool_decide_eq_true_2 by done. cbn [negb].
  rewrite buildRootCommand_eq.
  unfold cobra.Execute, cobra.execute, bind, emit, ret.
  cbn [cobra.Flags cobra.Run cobra.PreRunE sink dest trace app].
  unfold parsedFlags, rootFlags in Hp. rewrite Hp.
  unfold helpFlag, pflag.GetBool. cbn [pflag.Lookup flagsOf pflag.formal find
    pflag.Name String.eqb Ascii.eqb Bool.eqb pflag.Type_ pflag.Value].
  cbn. rewrite ParseBool_Format.
  destruct h.
  - rewrite (bool_decide_eq_true_2 (pflag.ErrHelp = pflag.ErrHelp)) by done.
    rewrite bool_decide_eq_true_2 by done.
    cbn. unfold pflag.IsChanged. cbn.
    destruct hc; [reflexivity|]. by specialize (Hh eq_refl).
  - rewrite (bool_decide_eq_false_2 (inl false = inl true)) by discriminate.
    destruct (PreRunE _ _ _ _ _ _ _ _) as [[e|] st'] eqn:Hpre; cbn.
    + rewrite bool_decide_eq_false_2 by eauto using PreRunE_not_help.
      reflexivity.
    + unfold pflag.IsChanged. cbn. by destruct (hc || vc).
Qed.

End hook_facts.

(** ** The version printers *)

Section encoding_facts.
Variable jsonString : string → string.

Lemma append_assoc (a b c : string) : (a +:+ b) +:+ c = a +:+ (b +:+ c).
Proof.
  induction a as [|x a IH]; [done|].
  change (String x ((a +:+ b) +:+ c) = String x (a +:+ (b +:+ c))).
  by rewrite IH.
Qed.

(** The bytes the encoder makes of the struct [info]. *)
Lemma encoded_info (version commit date : string) :
  object_text jsonString
    (members {| Version := version; Commit := commit; Date := date |})
  +:+ newline
  = "{" +:+ dquote +:+ "version" +:+ dquote +:+ ":" +:+ jsonString version
      +:+ (if bool_decide (commit = EmptyString) then EmptyString
           else "," +:+ dquote +:+ "commit" +:+ dquote +:+ ":"
                    +:+ jsonString commit)
      +:+ (if bool_decide (date = EmptyString) then EmptyString
           else "," +:+ dquote +:+ "date" +:+ dquote +:+ ":"
                    +:+ jsonString date)
      +:+ "}" +:+ newline.
Proof.
  unfold object_text, members, member_text, info_fields.
  cbn [omap list_omap omitempty get tag andb Version Commit Date].
  repeat case_bool_decide; try congruence;
    cbn [fmap list_fmap join fst snd]; rewrite !append_assoc; reflexivity.
Qed.

End encoding_facts.

Section printer_facts.
Context {W : Type} `{Writer W}.

(** C7. For every version string and every sink, the plain printer makes
    one write, of the version string followed by the line terminator, and
    returns the error of that write (none when the write succeeds); on a
    nil sink it writes nothing and returns the invalid-argument error
    "nil writer received". *)
Theorem PlainVersionPrinter_writes_line (version : string) :
  (∀ w : W,
     PlainVersionPrinter version (Some w) =
     (Some (Write w (version +:+ newline)).1,
      (Write w (version +:+ newline)).2.2))
  ∧ PlainVersionPrinter (W:=W) version None = (None, Some NilWriterReceived)
  ∧ kind_of NilWriterReceived = InvalidArgument.
Proof.
  split; [|done]. intros w. unfold PlainVersionPrinter, Fprintln.
  by destruct (Write w _) as [w' [n e]].
Qed.

Variable jsonString : string → string.


(** C8. For all version, commit and date strings the structured printer
    makes one write, of one JSON object followed by a newline: between
    the braces the member named [version] with the version string, then,
    each after a comma and only when its string is not empty, the member
    named [commit] and the member named [date]; a member is its name in
    double quotes, a colon and the string as a JSON string. The printer
    returns the error of that write, and on a nil sink it writes nothing
    and returns the invalid-argument error "nil writer received". *)
Theorem JSONVersionPrinter_record (version commit date : string) :
  let text :=
    "{" +:+ dquote +:+ "version" +:+ dquote +:+ ":" +:+ jsonString version
        +:+ (if bool_decide (commit = EmptyString) then EmptyString
             else "," +:+ dquote +:+ "commit" +:+ dquote +:+ ":" +:+ jsonString commit)
        +:+ (if bool_decide (date = EmptyString) then EmptyString
             else "," +:+ dquote +:+ "date" +:+ dquote +:+ ":" +:+ jsonString date)
        +:+ "}" +:+ newline in
  (∀ w : W,
     JSONVersionPrinter jsonString version commit date (Some w) =
     (Some (Write w text).1, (Write w text).2.2))
  ∧ JSONVersionPrinter (W:=W) jsonString version commit date None
    = (None, Some NilWriterReceived)
  ∧ kind_of NilWriterReceived = InvalidArgument.
Proof.
  cbn zeta. split; [|done]. intros w.
  rewrite <- (encoded_info jsonString).
  unfold JSONVersionPrinter, Encode.
  by destruct (Write w _) as [w' [n e]].
Qed.

End printer_facts.

(** On a buffer the plain printer appends the line; on a broken sink it
    hands back the sink's error. *)
Example PlainVersionPrinter_buffer :
  PlainVersionPrinter "v1.0.0" (Some {| contents := "out: " |})
  = (Some {| contents := "out: v1.0.0" +:+ newline |}, None).
Proof. reflexivity. Qed.

Example PlainVersionPrinter_broken :
  PlainVersionPrinter "v1.0.0" (Some {| reason := "closed pipe"; attempts := 0 |})
  = (Some {| reason := "closed pipe"; attempts := 1 |}, Some (Foreign "closed pipe")).
Proof. reflexivity. Qed.

(** The three shapes of the structured record, with a string encoder that
    only adds the quotes. *)
Example JSONVersionPrinter_shapes :
  let q := fun s => dquote +:+ s +:+ dquote in
  (JSONVersionPrinter q "v1" "abc" "2025" (Some {| contents := EmptyString |})).1
  = Some {| contents :=
      "{" +:+ q "version" +:+ ":" +:+ q "v1" +:+ ","
          +:+ q "commit" +:+ ":" +:+ q "abc" +:+ ","
          +:+ q "date" +:+ ":" +:+ q "2025" +:+ "}" +:+ newline |}
  ∧ (JSONVersionPrinter q "v1" EmptyString "2025" (Some {| contents := EmptyString |})).1
    = Some {| contents :=
        "{" +:+ q "version" +:+ ":" +:+ q "v1" +:+ ","
            +:+ q "date" +:+ ":" +:+ q "2025" +:+ "}" +:+ newline |}
  ∧ (JSONVersionPrinter q "v1" EmptyString EmptyString (Some {| contents := EmptyString |})).1
    = Some {| contents := "{" +:+ q "version" +:+ ":" +:+ q "v1" +:+ "}" +:+ newline |}.
Proof. repeat split; vm_compute; reflexivity. Qed.

(** ** Validation of the arguments *)

Section validation_facts.
Context {W D : Type} `{Decoder D}.

(** A destination that is no pointer, a nil printer and a nil sink are
    refused before anything else happens: nothing is parsed, read or
    written. *)
Lemma Load_refuses_eagerly (l : Loader) (w : World) (cfg : Any)
    (printVersion : option (VersionPrinter W)) (writer : option W) (d : D) :
  KindOf cfg ≠ Ptr ∨ printVersion = None ∨ writer = None →
  ∃ e, call l w cfg printVersion writer d
       = ((LoadResultStop, Some e), mkState writer d [])
     ∧ kind_of e = InvalidArgument.
Proof.
  intros Hbad. unfold call, Load, theWriter, bind, ret. cbn [sink].
  case_bool_decide as Hk; cbn [negb].
  - destruct printVersion as [pv|].
    + destruct writer as [s|]; [|by eexists].
      destruct Hbad as [?|[?|?]]; done.
    + by eexists.
  - by eexists.
Qed.
End validation_facts.

(** C4. The check of the destination looks at the kind of [cfg] only: a
    pointer passes whatever it points to. With [--version] a pointer to an
    integer, and a nil pointer, get the arguments parsed, the version
    printed and [(Stop, nil)]; without flags the pointer to an integer gets
    the file read, and the error comes from the decoder. *)
Theorem Load_accepts_pointer_to_non_struct :
  call testLoader (testWorld ["--version"] ∅) (Pointer (Some Int))
       (Some (PlainVersionPrinter "v1.0.0")) (Some emptyBuffer) 0%Z
  = ((LoadResultStop, None),
     mkState (Some {| contents := "v1.0.0" +:+ newline |}) 0%Z
             [FlagsParsed ["--version"]; VersionPrinterCalled])
  ∧ call testLoader (testWorld ["--version"] ∅) (Pointer None)
         (Some (PlainVersionPrinter "v1.0.0")) (Some emptyBuffer) emptyConfig
    = ((LoadResultStop, None),
       mkState (Some {| contents := "v1.0.0" +:+ newline |}) emptyConfig
               [FlagsParsed ["--version"]; VersionPrinterCalled])
  ∧ ∃ e, call testLoader (testWorld [] ∅) (Pointer (Some Int))
              (Some (PlainVersionPrinter "v1.0.0")) (Some emptyBuffer) 0%Z
         = ((LoadResultStop, Some e),
            mkState (Some emptyBuffer) 0%Z
                    [FlagsParsed []; ConfigFileSet "config.yaml";
                     ConfigRead "config.yaml"; Unmarshalled;
                     ErrorShown (UnmarshalMainConfig
                       (Foreign "expected type 'int', got unconvertible type 'map[string]interface {}'"))])
       ∧ kind_of e = ConfigUnmarshalError.
Proof.
  split; [by vm_compute|]. split; [by vm_compute|].
  eexists. split; [by vm_compute|]. reflexivity.
Qed.

(** ** Help and version *)

Section short_circuit_facts.
Context {W D : Type} `{Decoder D}.
Implicit Types (l : Loader) (w : World) (pv : VersionPrinter W)
  (fs : pflag.FlagSet) (elem : option ValueKind).

(** A version flag given as true is what the hook reads, and counts as
    changed. *)
Lemma versionGiven_versionFlag l w fs :
  shaped fs → versionGiven fs = true →
  versionFlag l w fs = true ∧ pflag.IsChanged fs "version" = true.
Proof.
  intros (c & cc & v & vc & h & hc & pos & -> & (Hc & Hv & Hh)).
  unfold versionGiven, pflag.GetBool. cbn. rewrite ParseBool_Format.
  intros Hg%bool_decide_eq_true. injection Hg as ->.
  destruct vc; [|by specialize (Hv eq_refl)].
  split; [|reflexivity].
  unfold versionFlag, viper.GetBool, viper.Get, viper.find, viper.boundFlag.
  cbn [boundViper viper.pflags]. rewrite lookup_insert_eq. reflexivity.
Qed.

(** C6, amended. For every call of Load with valid arguments whose
    command line names none of cobra's own commands and parses with the
    help flag set, alone or with any other flag: Load returns
    (Stop, nil), cobra shows the help on its own output, no config file
    is read, the destination and the sink are left as they were, and the
    version printer is not called, also when the version flag is set:
    help has priority. *)
Theorem help_short_circuits l w elem pv (s : W) (d : D) fs :
  rootCommandLine (Args w) →
  parsedFlags w = inl fs →
  helpFlag fs = true →
  let r := call l w (Pointer elem) (Some pv) (Some s) d in
  r.1 = (LoadResultStop, None)
  ∧ trace r.2 = [FlagsParsed (Args w); HelpShown]
  ∧ ¬ touchedFiles (trace r.2)
  ∧ printerCalls (trace r.2) = 0%nat
  ∧ sink r.2 = Some s
  ∧ dest r.2 = d.
Proof.
  intros _ Hp Hh. cbn zeta. rewrite (call_parsed _ _ _ _ _ _ _ Hp), Hh. cbn.
  repeat split.
  intros [p Hin]. rewrite !elem_of_cons in Hin.
  destruct Hin as [?|[?|Hin]]; [done..|]. by apply elem_of_nil in Hin.
Qed.

(** C2, amended. For every call of Load with valid arguments whose
    command line names none of cobra's own commands and parses with the
    version flag set and the help flag not set: the version printer is called exactly once, on the sink, after
    the arguments were parsed and with no config path set and no file
    read before or after; Load returns (Stop, nil) if the printer
    succeeds, whatever [--config] names, and (Stop, the printer's error
    wrapped) if it fails. *)
Theorem version_short_circuits l w elem pv (s : W) (d : D) fs :
  rootCommandLine (Args w) →
  parsedFlags w = inl fs →
  versionGiven fs = true →
  helpFlag fs = false →
  version_run l w elem pv s d
  ∧ ∃ shown, trace (call l w (Pointer elem) (Some pv) (Some s) d).2
             = FlagsParsed (Args w) :: VersionPrinterCalled :: shown
           ∧ ∀ e, e ∈ shown → ∃ x, e = ErrorShown x.
Proof.
  intros _ Hp Hv Hh.
  destruct (versionGiven_versionFlag l w fs (Parse_shaped _ _ Hp) Hv) as [Hvf Hch].
  unfold version_run. rewrite (call_parsed _ _ _ _ _ _ _ Hp), Hh. cbn zeta.
  rewrite PreRunE_version by done. cbn [fst snd sink dest trace app].
  rewrite Hch, orb_true_r.
  destruct (pv (Some s)) as [s' [e|]]; cbn.
  - split.
    + repeat split; try done.
      * intros Hin. rewrite !elem_of_cons in Hin.
        destruct Hin as [?|[?|[?|Hin]]]; [done..|]. by apply elem_of_nil in Hin.
      * intros Hin. rewrite !elem_of_cons in Hin.
        destruct Hin as [?|[?|[?|Hin]]]; [done..|]. by apply elem_of_nil in Hin.
    + eexists. split; [reflexivity|].
      intros x Hx. apply list_elem_of_singleton in Hx. eauto.
  - split.
    + repeat split; try done.
      * intros Hin. rewrite !elem_of_cons in Hin.
        destruct Hin as [?|[?|Hin]]; [done..|]. by apply elem_of_nil in Hin.
      * intros Hin. rewrite !elem_of_cons in Hin.
        destruct Hin as [?|[?|Hin]]; [done..|]. by apply elem_of_nil in Hin.
    + exists []. split; [reflexivity|]. intros x Hx. by apply elem_of_nil in Hx.
Qed.

End short_circuit_facts.

(** With [--help --version] the help is shown and the printer is not
    called, while the sentence has the version flag take priority. *)
Lemma help_short_circuit_counterexample :
  ¬ help_short_circuit_as_stated testLoader (testWorld ["--help"; "--version"] ∅)
      (Some Struct) (PlainVersionPrinter "v1.0.0") emptyBuffer emptyConfig.
Proof.
  intros Hc.
  destruct (Hc (flagsOf EmptyString false true true true true []))
    as (_ & _ & Hcalls); [by vm_compute..|].
  vm_compute in Hcalls. discriminate.
Qed.

Lemma help_short_circuits_witness :
  let w := testWorld ["--help"; "--version"; "--config"; "nonexistent.yaml"] ∅ in
  let fs := flagsOf "nonexistent.yaml" true true true true true [] in
  let r := call testLoader w (Pointer (Some Struct))
                (Some (PlainVersionPrinter "v1.0.0")) (Some emptyBuffer) emptyConfig in
  rootCommandLine (Args w) ∧ parsedFlags w = inl fs ∧ helpFlag fs = true
  ∧ r.1 = (LoadResultStop, None)
  ∧ trace r.2 = [FlagsParsed (Args w); HelpShown]
  ∧ ¬ touchedFiles (trace r.2)
  ∧ printerCalls (trace r.2) = 0%nat
  ∧ sink r.2 = Some emptyBuffer
  ∧ dest r.2 = emptyConfig.
Proof.
  cbn zeta. split; [by vm_compute|]. split; [by vm_compute|]. split; [by vm_compute|].
  apply (help_short_circuits testLoader
           (testWorld ["--help"; "--version"; "--config"; "nonexistent.yaml"] ∅)
           (Some Struct) (PlainVersionPrinter "v1.0.0") emptyBuffer emptyConfig
           (flagsOf "nonexistent.yaml" true true true true true []));
    vm_compute; reflexivity.
Defined.

(** With [--version --help] the version flag is set and the printer is
    never called. *)
Lemma version_short_circuit_counterexample :
  ¬ version_short_circuit_as_stated testLoader (testWorld ["--version"; "--help"] ∅)
      (Some Struct) (PlainVersionPrinter "v1.0.0") emptyBuffer emptyConfig.
Proof.
  intros Hc.
  destruct (Hc (flagsOf EmptyString false true true true true []))
    as (Hcalls & _); [by vm_compute..|].
  vm_compute in Hcalls. discriminate.
Qed.

Lemma version_short_circuits_witness :
  let w := testWorld ["--version"; "--config"; "nonexistent.yaml"] ∅ in
  let fs := flagsOf "nonexistent.yaml" true true true false false [] in
  rootCommandLine (Args w)
  ∧ parsedFlags w = inl fs ∧ versionGiven fs = true ∧ helpFlag fs = false
  ∧ version_run testLoader w (Some Struct) (PlainVersionPrinter "v1.0.0")
                emptyBuffer emptyConfig
  ∧ ∃ shown,
      trace (call testLoader w (Pointer (Some Struct))
                  (Some (PlainVersionPrinter "v1.0.0")) (Some emptyBuffer)
                  emptyConfig).2
      = FlagsParsed (Args w) :: VersionPrinterCalled :: shown
      ∧ ∀ e, e ∈ shown → ∃ x, e = ErrorShown x.
Proof.
  cbn zeta. split; [by vm_compute|].
  split; [by vm_compute|]. split; [by vm_compute|]. split; [by vm_compute|].
  apply (version_short_circuits testLoader
           (testWorld ["--version"; "--config"; "nonexistent.yaml"] ∅)
           (Some Struct) (PlainVersionPrinter "v1.0.0") emptyBuffer emptyConfig
           (flagsOf "nonexistent.yaml" true true true false false []));
    vm_compute; reflexivity.
Defined.

(** ** Resolution of the config path and of the keys *)

Section resolution_facts.
Implicit Types (l : Loader) (w : World) (fs : pflag.FlagSet).

Lemma envValue_envConfig l w :
  envValue l w "config" =
  if bool_decide (envConfig l w = EmptyString) then None else Some (envConfig l w).
Proof.
  unfold envValue, envConfig, viper.getEnv, envName. cbn [boundViper viper.envKeyReplacer].
  destruct (Environ w !! _) as [val|]; cbn; [|done].
  by case_bool_decide.
Qed.

Lemma boundFlag_config l settings path c cc v vc h hc pos :
  viper.boundFlag (loadedViper l settings path) (flagsOf c cc v vc h hc pos) "config"
  = Some {| pflag.Name := "config"; pflag.Shorthand := "c";
            pflag.Type_ := pflag.stringValue; pflag.Value := c;
            pflag.DefValue := EmptyString; pflag.NoOptDefVal := EmptyString;
            pflag.Changed := cc |}.
Proof.
  unfold viper.boundFlag. cbn [loadedViper viper.pflags].
  rewrite lookup_insert_ne by done. rewrite lookup_insert_eq. reflexivity.
Qed.

Lemma boundFlag_other l settings path fs key :
  key ≠ "config" → key ≠ "version" →
  viper.boundFlag (loadedViper l settings path) fs key = None.
Proof.
  intros H1 H2. unfold viper.boundFlag. cbn [loadedViper viper.pflags].
  rewrite lookup_insert_ne by done. rewrite lookup_insert_ne by done.
  by rewrite lookup_empty.
Qed.

(** The value viper resolves for the key [config]: the flag if it was
    given, else the environment, else the file, else the flag's default. *)
Lemma Get_config l w settings path fs :
  shaped fs →
  viper.Get (loadedViper l settings path) fs w "config" =
  Some (if configGiven fs then VString (configFlag fs)
        else match envValue l w "config" with
             | Some x => VString x
             | None => default (VString EmptyString) (settings !! "config")
             end).
Proof.
  intros (c & cc & v & vc & h & hc & pos & -> & (Hc & Hv & Hh)).
  unfold viper.Get, viper.find. rewrite boundFlag_config.
  unfold configGiven, configFlag, pflag.IsChanged. cbn.
  destruct cc; [reflexivity|]. rewrite (Hc eq_refl).
  change (viper.getEnv _ w _) with (envValue l w "config").
  destruct (envValue l w "config"); [reflexivity|].
  by destruct (settings !! "config").
Qed.

(** Any key without a flag: the environment, else the file. *)
Lemma Get_key l w settings path fs key :
  key ≠ "config" → key ≠ "version" →
  viper.Get (loadedViper l settings path) fs w key =
  match envValue l w key with
  | Some x => Some (VString x)
  | None => settings !! key
  end.
Proof.
  intros H1 H2. unfold viper.Get, viper.find.
  by rewrite boundFlag_other.
Qed.

(** The settings handed to the decoder: [Get] on the keys of the file
    and on the two bound flags. *)
Lemma AllSettings_lookup l w settings path fs key :
  viper.AllSettings (loadedViper l settings path) fs w !! key =
  if bool_decide (key = "config" ∨ key = "version" ∨ is_Some (settings !! key))
  then viper.Get (loadedViper l settings path) fs w key
  else None.
Proof.
  unfold viper.AllSettings. rewrite map_lookup_imap, lookup_gset_to_gmap.
  unfold viper.AllKeys. cbn [loadedViper viper.pflags viper.config].
  case_bool_decide as Hk.
  - rewrite option_guard_True; [done|].
    rewrite elem_of_union, !dom_insert, dom_empty, !elem_of_union,
      !elem_of_singleton, elem_of_dom.
    destruct Hk as [->|[->|?]]; auto.
  - rewrite option_guard_False; [done|].
    rewrite elem_of_union, !dom_insert, dom_empty, !elem_of_union,
      !elem_of_singleton, elem_of_dom, elem_of_empty.
    intros [[?|[?|[]]]|?]; apply Hk; auto.
Qed.

(** The path set on viper: a flag that was given decides, with its value
    or, when that is empty, with the fallback; without the flag the
    environment decides in the same way. *)
Lemma resolvedPath_spec l w fs :
  shaped fs →
  resolvedPath l w fs =
  if configGiven fs
  then (if bool_decide (configFlag fs = EmptyString)
        then l.(configPath) else configFlag fs)
  else (if bool_decide (envConfig l w = EmptyString)
        then l.(configPath) else envConfig l w).
Proof.
  intros Hs. unfold resolvedPath, viper.GetString.
  change (boundViper l) with (loadedViper l ∅ EmptyString).
  rewrite Get_config by done. rewrite envValue_envConfig, lookup_empty.
  destruct (configGiven fs); cbn.
  - repeat case_bool_decide; congruence.
  - case_bool_decide as He; cbn; repeat case_bool_decide; congruence.
Qed.

End resolution_facts.

(** ** Every call is one of the runs *)

Section run_facts.
Context {W D : Type} `{Decoder D}.
Implicit Types (l : Loader) (w : World) (pv : VersionPrinter W)
  (fs : pflag.FlagSet) (elem : option ValueKind).

(** A command line that does not parse: the error is shown by cobra and
    returned; nothing else happens. *)
Lemma call_unparsed l w elem pv (s : W) (d : D) e :
  parsedFlags w = inr e →
  ∃ res shown,
    call l w (Pointer elem) (Some pv) (Some s) d
    = (res, mkState (Some s) d [FlagsParsed (Args w); shown])
    ∧ (shown = HelpShown ∨ shown = ErrorShown e)
    ∧ (∀ x, res.2 = Some x → res.1 = LoadResultStop).
Proof.
  intros Hp.
  unfold call, Load, theWriter, bind at 1. cbn [sink KindOf negb bool_decide].
  rewrite bool_decide_eq_true_2 by done. cbn [negb].
  rewrite buildRootCommand_eq.
  unfold cobra.Execute, cobra.execute, bind, emit, ret.
  cbn [cobra.Flags cobra.Run cobra.PreRunE sink dest trace app].
  unfold parsedFlags, rootFlags in Hp. rewrite Hp.
  case_bool_decide.
  - cbn. do 2 eexists. split; [reflexivity|]. split; [by left|]. done.
  - do 2 eexists. split; [reflexivity|]. split; [by right|]. done.
Qed.

Lemma call_Run l w elem pv (s : W) (d : D) fs :
  parsedFlags w = inl fs →
  Run l w elem pv s d fs (call l w (Pointer elem) (Some pv) (Some s) d).
Proof.
  intros Hp. rewrite (call_parsed _ _ _ _ _ _ _ Hp).
  destruct (helpFlag fs) eqn:Hh; [by constructor|].
  destruct (versionFlag l w fs) eqn:Hv; cbn zeta.
  - rewrite PreRunE_version by done. cbn [fst snd sink dest trace app].
    destruct (pv (Some s)) as [s' [e|]] eqn:Hpv; cbn [fmap option_fmap option_map fst snd].
    + change s' with (s', Some e).1. rewrite <- Hpv.
      apply (VersionRun _ _ _ _ _ _ _ (_, _) [_]); try done.
      * by rewrite Hpv.
      * intros x Hx%list_elem_of_singleton. eauto.
    + change s' with (s', @None error).1. rewrite <- Hpv.
      apply (VersionRun _ _ _ _ _ _ _ (_, _) []); try done.
      * by rewrite Hpv.
      * intros x Hx. by apply elem_of_nil in Hx.
  - rewrite PreRunE_config by done. cbn zeta.
    destruct (ReadFile w _) as [settings|e]; cbn [fst snd sink dest trace app].
    + destruct elem as [k|]; cbn [fst snd sink dest trace app].
      * destruct (Decode _ _) as [d' [e|]];
          cbn [fmap option_fmap option_map fst snd sink dest trace app].
        -- apply (ConfigRun _ _ _ _ _ _ _ (_, _) _ [_; _]); try done.
           intros x. rewrite !elem_of_cons. intros [->|[->|Hx]]; eauto.
           by apply elem_of_nil in Hx.
        -- apply (ConfigRun _ _ _ _ _ _ _ (_, _) _ [_]); try done.
           intros x Hx%list_elem_of_singleton. eauto.
      * apply (ConfigRun _ _ _ _ _ _ _ (_, _) _ [_; _]); try done.
        intros x. rewrite !elem_of_cons. intros [->|[->|Hx]]; eauto.
        by apply elem_of_nil in Hx.
    + apply (ConfigRun _ _ _ _ _ _ _ (_, _) _ [_]); try done.
      intros x Hx%list_elem_of_singleton. eauto.
Qed.

End run_facts.

(** ** The config file *)

Section config_facts.
Context {W D : Type} `{Decoder D}.
Implicit Types (l : Loader) (w : World) (pv : VersionPrinter W)
  (fs : pflag.FlagSet) (elem : option ValueKind).

(** Over a file system viper has its [ConfigFileNotFoundError] for the
    empty path and for no other. *)
Lemma readFrom_not_found (files : Files) (path : string) e :
  readFrom files path = inr e →
  viper.IsConfigFileNotFound e = String.eqb path EmptyString.
Proof.
  unfold readFrom. destruct (String.eqb path EmptyString).
  - by intros [= <-].
  - destruct (files !! path) as [[?|?]|]; [done|by intros [= <-]..].
Qed.

(** Any other failure to read the file is reported with the path too. *)
Lemma unreadable_config_file l w elem pv (s : W) (d : D) fs e :
  parsedFlags w = inl fs →
  helpFlag fs = false →
  versionFlag l w fs = false →
  ReadFile w (resolvedPath l w fs) = inr e →
  viper.IsConfigFileNotFound e = false →
  (call l w (Pointer elem) (Some pv) (Some s) d).1
  = (LoadResultStop,
     Some (ExecuteRootCommand (ReadMainConfigAt (resolvedPath l w fs) e))).
Proof.
  intros Hp Hh Hv Hr He.
  rewrite (call_parsed _ _ _ _ _ _ _ Hp), Hh. cbn zeta.
  rewrite PreRunE_config by done. cbn zeta. rewrite Hr, He. done.
Qed.

(** C9. For every call of Load with valid arguments whose [--config]
    flag holds the empty string and whose environment has the override
    of the config path unset or set to the empty string: the path
    resolved is the loader's fallback; no other path is set on viper or
    read in that call, and the fallback is whenever the run gets to the
    config file (a command line that names none of cobra's own commands,
    help flag not set, hook's version flag false). *)
Theorem empty_overrides_fall_back l w elem pv (s : W) (d : D) fs :
  parsedFlags w = inl fs →
  configFlag fs = EmptyString →
  Environ w !! envName l "config" = None
    ∨ Environ w !! envName l "config" = Some EmptyString →
  let r := call l w (Pointer elem) (Some pv) (Some s) d in
  resolvedPath l w fs = l.(configPath)
  ∧ (∀ p, ConfigFileSet p ∈ trace r.2 ∨ ConfigRead p ∈ trace r.2 → p = l.(configPath))
  ∧ (rootCommandLine (Args w) → helpFlag fs = false → versionFlag l w fs = false →
     ConfigFileSet l.(configPath) ∈ trace r.2 ∧ ConfigRead l.(configPath) ∈ trace r.2).
Proof.
  intros Hp Hc He. cbn zeta.
  assert (Hpath : resolvedPath l w fs = l.(configPath)).
  { rewrite resolvedPath_spec by eauto using Parse_shaped.
    assert (envConfig l w = EmptyString) as ->.
    { unfold envConfig. by destruct He as [->| ->]. }
    rewrite Hc. by destruct (configGiven fs). }
  split; [done|].
  destruct (call_Run l w elem pv s d fs Hp) as [Hh|res shown Hh Hv Hres Hshown
                                                |res d' rest Hh Hv Hrest];
    cbn [snd trace].
  - split; [|congruence].
    intros p. rewrite !elem_of_cons, !elem_of_nil.
    intros [[?|[?|[]]]|[?|[?|[]]]]; done.
  - split; [|congruence].
    intros p. rewrite !elem_of_cons.
    intros [[?|[?|Hin]]|[?|[?|Hin]]]; try done;
      by destruct (Hshown _ Hin).
  - rewrite Hpath. split.
    + intros p. rewrite !elem_of_cons.
      intros [[?|[?|[?|Hin]]]|[?|[?|[?|Hin]]]]; try congruence;
        by destruct (Hrest _ Hin) as [?|[? ?]].
    + intros _ _ _. rewrite !elem_of_cons. auto.
Qed.

End config_facts.

(** ** The sink *)

Section sink_facts.
Context {W D : Type} `{Decoder D}.

Lemma printerCalls_shown (shown : list Event) :
  (∀ e, e ∈ shown → ∃ x, e = ErrorShown x) → printerCalls shown = 0%nat.
Proof.
  unfold printerCalls. induction shown as [|e shown IH]; intros Hs; [done|].
  rewrite filter_cons.
  destruct (Hs e) as [x ->]; [by left|].
  rewrite decide_False by done. apply IH. intros ? ?. apply Hs. by right.
Qed.

Lemma printerCalls_rest (rest : list Event) :
  (∀ e, e ∈ rest → e = Unmarshalled ∨ ∃ x, e = ErrorShown x) →
  printerCalls rest = 0%nat.
Proof.
  unfold printerCalls. induction rest as [|e rest IH]; intros Hs; [done|].
  rewrite filter_cons.
  destruct (Hs e) as [->|[x ->]]; [by left|..];
    (rewrite decide_False by done; apply IH; intros ? ?; apply Hs; by right).
Qed.

(** X17. The sink is written by the version printer only, and the
    printer runs on the value viper has for [version], not on the flag
    alone. For every call of Load, valid or not: either the sink is
    after the call what it was before and the version printer was not
    called, or the command line parsed with the help flag not set, the
    hook's version flag is true, the printer was called exactly once and
    the sink is what that call left. In particular there is no write on
    the help path, on a path that sets a config file (with or without an
    error after it), or when the arguments are refused or do not parse
    (there, an error is returned and the printer not called). *)
Theorem sink_written_only_by_version_printer (l : Loader) (w : World) (cfg : Any)
    (printVersion : option (VersionPrinter W)) (writer : option W) (d : D) :
  let r := call l w cfg printVersion writer d in
  ((sink r.2 = writer ∧ printerCalls (trace r.2) = 0%nat)
   ∨ (∃ pv fs, printVersion = Some pv ∧ parsedFlags w = inl fs
        ∧ helpFlag fs = false ∧ versionFlag l w fs = true
        ∧ printerCalls (trace r.2) = 1%nat ∧ sink r.2 = (pv writer).1))
  ∧ (HelpShown ∈ trace r.2 → sink r.2 = writer)
  ∧ (∀ p, ConfigFileSet p ∈ trace r.2 → sink r.2 = writer)
  ∧ (∀ x, ErrorShown x ∈ trace r.2 → printerCalls (trace r.2) = 0%nat →
     sink r.2 = writer).
Proof.
  cbn zeta.
  destruct (decide (KindOf cfg ≠ Ptr ∨ printVersion = None ∨ writer = None))
    as [Hbad|Hok].
  { destruct (Load_refuses_eagerly l w cfg printVersion writer d Hbad) as (e & -> & _).
    cbn. split; [by left|]. by repeat split. }
  destruct cfg as [k|elem]; [destruct Hok; by left|].
  destruct printVersion as [pv|]; [|destruct Hok; auto].
  destruct writer as [s|]; [|destruct Hok; auto].
  destruct (parsedFlags w) as [fs|e] eqn:Hp.
  - destruct (call_Run l w elem pv s d fs Hp) as [Hh|res shown Hh Hv Hres Hshown
                                                  |res d' rest Hh Hv Hrest];
      cbn [snd trace sink].
    + split; [by left|]. by repeat split.
    + split.
      { right. exists pv, fs. repeat split; try done.
        unfold printerCalls. rewrite !filter_cons.
        rewrite decide_False by done. rewrite decide_True by done. cbn.
        f_equal. by apply printerCalls_shown. }
      split.
      { rewrite !elem_of_cons. intros [?|[?|Hin]]; try done.
        by destruct (Hshown _ Hin). }
      split.
      { intros p. rewrite !elem_of_cons. intros [?|[?|Hin]]; try done.
        by destruct (Hshown _ Hin). }
      intros x _. unfold printerCalls. rewrite !filter_cons.
      rewrite decide_False by done. rewrite decide_True by done. done.
    + split; [|by repeat split]. left. split; [done|].
      unfold printerCalls. rewrite !filter_cons.
      rewrite !decide_False by done. by apply printerCalls_rest.
  - destruct (call_unparsed l w elem pv s d e Hp) as (res & shown & -> & Hshown & _).
    cbn. split; [|by repeat split]. left. split; [done|].
    by destruct Hshown as [->| ->].
Qed.

End sink_facts.

(** ** Precedence *)

Section precedence_facts.
Context {W D : Type} `{Decoder D}.
Implicit Types (l : Loader) (w : World) (pv : VersionPrinter W)
  (fs : pflag.FlagSet).


End precedence_facts.



Lemma empty_overrides_fall_back_witness :
  let w := testWorld [] {["TESTAPP_CONFIG" := EmptyString]} in
  let fs := flagsOf EmptyString false false false false false [] in
  let r := call testLoader w (Pointer (Some Struct))
                (Some (PlainVersionPrinter "v1.0.0")) (Some emptyBuffer) emptyConfig in
  parsedFlags w = inl fs ∧ configFlag fs = EmptyString
  ∧ Environ w !! envName testLoader "config" = Some EmptyString
  ∧ resolvedPath testLoader w fs = "config.yaml"
  ∧ (∀ p, ConfigFileSet p ∈ trace r.2 ∨ ConfigRead p ∈ trace r.2 → p = "config.yaml")
  ∧ (rootCommandLine (Args w) → helpFlag fs = false →
     versionFlag testLoader w fs = false →
     ConfigFileSet "config.yaml" ∈ trace r.2 ∧ ConfigRead "config.yaml" ∈ trace r.2).
Proof.
  cbn zeta. split; [by vm_compute|]. split; [by vm_compute|]. split; [by vm_compute|].
  apply (empty_overrides_fall_back testLoader
           (testWorld [] {["TESTAPP_CONFIG" := EmptyString]}) (Some Struct)
           (PlainVersionPrinter "v1.0.0") emptyBuffer emptyConfig
           (flagsOf EmptyString false false false false false [])).
  - vm_compute; reflexivity.
  - vm_compute; reflexivity.
  - right. vm_compute; reflexivity.
Defined.

(** ** The result and the destination *)

Section result_facts.
Context {W D : Type} `{Decoder D}.

(** Every error comes with [Stop]. *)
Lemma Load_error_stops (l : Loader) (w : World) (cfg : Any)
    (printVersion : option (VersionPrinter W)) (writer : option W) (d : D) e :
  (call l w cfg printVersion writer d).1.2 = Some e →
  (call l w cfg printVersion writer d).1.1 = LoadResultStop.
Proof.
  destruct (decide (KindOf cfg ≠ Ptr ∨ printVersion = None ∨ writer = None))
    as [Hbad|Hok].
  { by destruct (Load_refuses_eagerly l w cfg printVersion writer d Hbad) as (? & -> & _). }
  destruct cfg as [k|elem]; [destruct Hok; by left|].
  destruct printVersion as [pv|]; [|destruct Hok; auto].
  destruct writer as [s|]; [|destruct Hok; auto].
  destruct (parsedFlags w) as [fs|e'] eqn:Hp.
  - rewrite (call_parsed _ _ _ _ _ _ _ Hp).
    destruct (helpFlag fs); [done|]. cbn zeta.
    by destruct (PreRunE _ _ _ _ _ _ _ _) as [[x|] st'].
  - destruct (call_unparsed l w elem pv s d e' Hp) as (res & shown & -> & _ & Hres).
    cbn. apply Hres.
Qed.
End result_facts.

(** C3. Load decides between Stop and Continue by whether [--help] or
    [--version] occurred on the command line, while the hook decides what
    to do by the value viper resolves for [version]. With the variable
    TESTAPP_VERSION set to [true] and no flag, the version is printed, no
    file is read, the destination stays empty and Load returns
    (Continue, nil). With [--version=false] the file is loaded into the
    destination and Load returns (Stop, nil). *)
Theorem Load_result_disagrees_with_hook :
  testCall testLoader (testWorld [] {["TESTAPP_VERSION" := "true"]})
  = ((LoadResultContinue, None),
     mkState (Some {| contents := "v1.0.0" +:+ newline |}) emptyConfig
             [FlagsParsed []; VersionPrinterCalled])
  ∧ testCall testLoader (testWorld ["--version=false"] ∅)
    = ((LoadResultStop, None),
       mkState (Some emptyBuffer) {| LogLevel := "info"; Port := 8080 |}
               [FlagsParsed ["--version=false"]; ConfigFileSet "config.yaml";
                ConfigRead "config.yaml"; Unmarshalled]).
Proof. split; by vm_compute. Qed.

(** C5. A config file that is missing is not reported as not found.
    With [--config nonexistent.yaml], or with no flag and a loader whose
    fallback path is [nonexistent.yaml], and no file of that name, viper
    has the error of opening the file, which is no
    [ConfigFileNotFoundError]: the hook takes the branch for the other
    read failures, and Load returns Stop with the error "read main
    config at", of the kind of a file that does not parse, where the
    sentence has the kind ConfigNotFound. *)
Theorem missing_file_is_reported_as_read_failure :
  let cause := Foreign "open nonexistent.yaml: no such file or directory" in
  let err := ExecuteRootCommand (ReadMainConfigAt "nonexistent.yaml" cause) in
  testFileSystem !! "nonexistent.yaml" = None
  ∧ testCall testLoader (testWorld ["--config"; "nonexistent.yaml"] ∅)
    = ((LoadResultStop, Some err),
       mkState (Some emptyBuffer) emptyConfig
               [FlagsParsed ["--config"; "nonexistent.yaml"];
                ConfigFileSet "nonexistent.yaml"; ConfigRead "nonexistent.yaml";
                ErrorShown (ReadMainConfigAt "nonexistent.yaml" cause)])
  ∧ testCall (NewLoader "testapp" "Test App" EmptyString "nonexistent.yaml" "TESTAPP")
             (testWorld [] ∅)
    = ((LoadResultStop, Some err),
       mkState (Some emptyBuffer) emptyConfig
               [FlagsParsed []; ConfigFileSet "nonexistent.yaml";
                ConfigRead "nonexistent.yaml";
                ErrorShown (ReadMainConfigAt "nonexistent.yaml" cause)])
  ∧ viper.IsConfigFileNotFound cause = false
  ∧ kind_of err = ConfigParseError
  ∧ kind_of err ≠ ConfigNotFound.
Proof. cbn zeta. repeat split; by vm_compute. Qed.

(** C10. The sink is written without the version flag. With the
    variable TESTAPP_VERSION set to [true] and an empty command line, no
    flag is set or changed, and the hook, which reads the value viper
    has for [version], calls the version printer on the sink: the sink
    holds the version line after the call. *)
Theorem sink_written_without_version_flag :
  let w := testWorld [] {["TESTAPP_VERSION" := "true"]} in
  let r := testCall testLoader w in
  (∃ fs, parsedFlags w = inl fs
         ∧ versionGiven fs = false
         ∧ pflag.IsChanged fs "version" = false
         ∧ helpFlag fs = false
         ∧ versionFlag testLoader w fs = true)
  ∧ printerCalls (trace r.2) = 1%nat
  ∧ sink r.2 = Some {| contents := "v1.0.0" +:+ newline |}
  ∧ sink r.2 ≠ Some emptyBuffer.
Proof.
  cbn zeta. split.
  { exists (flagsOf EmptyString false false false false false []).
    repeat split; by vm_compute. }
  repeat split; by vm_compute.
Qed.

(** ** The cases of loader_test.go *)

Example test_unset_config_flag :
  testCall testLoader (testWorld [] ∅)
  = ((LoadResultContinue, None),
     mkState (Some emptyBuffer) {| LogLevel := "info"; Port := 8080 |}
             [FlagsParsed []; ConfigFileSet "config.yaml";
              ConfigRead "config.yaml"; Unmarshalled]).
Proof. by vm_compute. Qed.

Example test_field_overridden_by_env :
  dest (testCall testLoader (testWorld [] {["TESTAPP_LOG_LEVEL" := "debug"]})).2
  = {| LogLevel := "debug"; Port := 8080 |}
  ∧ dest (testCall testLoader (testWorld [] {["TESTAPP_PORT" := "7070"]})).2
    = {| LogLevel := "info"; Port := 7070 |}.
Proof. split; by vm_compute. Qed.

Example test_config_path_overridden_by_env :
  (testCall (NewLoader "testapp" "Test App" EmptyString "default.yaml" "TESTAPP")
            (testWorld [] {["TESTAPP_CONFIG" := "config.yaml"]})).1
  = (LoadResultContinue, None).
Proof. by vm_compute. Qed.

Example test_flags :
  (testCall testLoader (testWorld ["--version"] ∅)).1 = (LoadResultStop, None)
  ∧ (testCall testLoader (testWorld ["--help"] ∅)).1 = (LoadResultStop, None)
  ∧ (testCall testLoader (testWorld ["--version"; "--config"; "nonexistent.yaml"] ∅)).1
    = (LoadResultStop, None)
  ∧ (testCall testLoader (testWorld ["--help"; "--config"; "nonexistent.yaml"] ∅)).1
    = (LoadResultStop, None)
  ∧ (testCall testLoader (testWorld ["--version"; "--help"] ∅)).1
    = (LoadResultStop, None)
  ∧ (testCall testLoader (testWorld ["--config"; "nonexistent.yaml"] ∅)).1.1
    = LoadResultStop.
Proof. repeat split; by vm_compute. Qed.

Example test_invalid_config :
  (testCall (NewLoader "testapp" "Test App" EmptyString "invalid_config.yaml" "TESTAPP")
            (testWorld [] ∅)).1
  = (LoadResultStop,
     Some (ExecuteRootCommand
             (ReadMainConfigAt "invalid_config.yaml"
                (Foreign "yaml: mapping values are not allowed in this context")))).
Proof. by vm_compute. Qed.

(** * Further properties of the package *)

(** ** A command line that does not parse *)

Section parse_errors.

Lemma Set_not_help fs name value e :
  pflag.Set_ fs name value = inr e → e ≠ pflag.ErrHelp.
Proof.
  unfold pflag.Set_. destruct (pflag.Lookup fs name) as [fl|].
  - destruct (pflag.setValue _ _); [discriminate|].
    intros [= <-] Heq. cbn in Heq. discriminate.
  - intros [= <-] Heq. cbn in Heq. discriminate.
Qed.

Lemma withTaken_not_help b r e :
  (∀ x, r = inr x → x ≠ pflag.ErrHelp) →
  pflag.withTaken b r = inr e → e ≠ pflag.ErrHelp.
Proof. destruct r; cbn; [discriminate|]. intros Hr [= <-]. by apply Hr. Qed.

Lemma parseLongArg_not_help fs s next e :
  shaped fs → pflag.parseLongArg fs s next = inr e → e ≠ pflag.ErrHelp.
Proof.
  intros (c & cc & v & vc & h & hc & pos & -> & _). unfold pflag.parseLongArg.
  destruct s as [|a s]; [intros [= <-] Heq; cbn in Heq; discriminate|].
  destruct (_ || _); [intros [= <-] Heq; cbn in Heq; discriminate|].
  destruct (strings.SplitEq (String a s)) as [nm inline].
  destruct (pflag.Lookup _ nm) as [fl|] eqn:Hl.
  - destruct inline as [value|];
      [apply withTaken_not_help; intros x; apply Set_not_help|].
    destruct (negb _);
      [apply withTaken_not_help; intros x; apply Set_not_help|].
    destruct next as [value|];
      [apply withTaken_not_help; intros x; apply Set_not_help|].
    intros [= <-] Heq. cbn in Heq. discriminate.
  - destruct (String.eqb_spec nm "help") as [->|_].
    + cbn in Hl. discriminate.
    + intros [= <-] Heq. cbn in Heq. discriminate.
Qed.

Lemma parseShortArg_not_help shorthands : ∀ fs next e,
  shaped fs → pflag.parseShortArg fs shorthands next = inr e → e ≠ pflag.ErrHelp.
Proof.
  induction shorthands as [|a rest IH]; intros fs next e Hs; [discriminate|].
  cbn [pflag.parseShortArg].
  destruct (strings.HasPrefix _ _); [discriminate|].
  destruct (pflag.ShorthandLookup fs a) as [fl|] eqn:Hl.
  - assert (Hrest :
      (if negb (pflag.NoOptDefVal fl =? EmptyString)%string
       then match pflag.Set_ fs (pflag.Name fl) (pflag.NoOptDefVal fl) with
            | inl f' => pflag.parseShortArg f' rest next
            | inr e => inr e
            end
       else match rest with
            | String _ _ => pflag.withTaken false (pflag.Set_ fs (pflag.Name fl) rest)
            | EmptyString =>
                match next with
                | Some value => pflag.withTaken true (pflag.Set_ fs (pflag.Name fl) value)
                | None =>
                    inr (Foreign ("flag needs an argument: " +:+ String a EmptyString
                                    +:+ " in -" +:+ String a rest))
                end
            end) = inr e → e ≠ pflag.ErrHelp).
    { destruct (negb _).
      - destruct (pflag.Set_ fs _ _) as [f'|x] eqn:HS.
        + apply IH. eauto using Set_shaped.
        + intros [= <-]. eauto using Set_not_help.
      - destruct rest.
        + destruct next;
            [apply withTaken_not_help; intros x; apply Set_not_help|].
          intros [= <-] Heq. cbn in Heq. discriminate.
        + apply withTaken_not_help; intros x; apply Set_not_help. }
    destruct rest as [|b rest']; [exact Hrest|].
    destruct (Ascii.eqb_spec b "=") as [->|Hne].
    + destruct rest' as [|d value']; [exact Hrest|].
      apply withTaken_not_help; intros x; apply Set_not_help.
    + revert Hrest.
      destruct b as [[] [] [] [] [] [] [] []]; try (intros Hrest; exact Hrest).
      by destruct Hne.
  - destruct (Ascii.eqb_spec a "h") as [->|_].
    + destruct Hs as (c & cc & v & vc & h & hc & pos & -> & _). cbn in Hl. discriminate.
    + intros [= <-] Heq. cbn in Heq. discriminate.
Qed.

Lemma parseArgs_not_help (n : nat) : ∀ (arguments : list string) fs e,
  (List.length arguments ≤ n)%nat → shaped fs →
  pflag.parseArgs fs arguments = inr e → e ≠ pflag.ErrHelp.
Proof.
  induction n as [|n IH]; intros arguments fs e Hlen Hs.
  { destruct arguments; [discriminate|cbn in Hlen; lia]. }
  destruct arguments as [|s rest]; [discriminate|].
  cbn in Hlen.
  assert (Hplain : pflag.parseArgs (pflag.addArg fs [s]) rest = inr e → e ≠ pflag.ErrHelp).
  { apply IH; [lia|by apply addArg_shaped]. }
  assert (Hflag : ∀ r,
    (∀ f' t, r = inl (f', t) → shaped f') →
    (∀ x, r = inr x → x ≠ pflag.ErrHelp) →
    match r with
    | inr e => inr e
    | inl (f', taken) =>
        match taken, rest with
        | true, _ :: rest' => pflag.parseArgs f' rest'
        | _, _ => pflag.parseArgs f' rest
        end
    end = inr e → e ≠ pflag.ErrHelp).
  { intros [[f' t]|x] Hr Hx; [|intros [= <-]; by apply Hx].
    specialize (Hr f' t eq_refl).
    destruct t, rest as [|y rest']; try (apply IH; [cbn in *; lia|done]). }
  cbn [pflag.parseArgs].
  destruct s as [|a s]; [exact Hplain|].
  destruct a as [[] [] [] [] [] [] [] []]; try exact Hplain.
  destruct s as [|c body]; [exact Hplain|].
  assert (Hgo :
    match (if Ascii.eqb c "-"
           then pflag.parseLongArg fs body (head rest)
           else pflag.parseShortArg fs (String c body) (head rest)) with
    | inr e => inr e
    | inl (f', taken) =>
        match taken, rest with
        | true, _ :: rest' => pflag.parseArgs f' rest'
        | _, _ => pflag.parseArgs f' rest
        end
    end = inr e → e ≠ pflag.ErrHelp).
  { apply Hflag; destruct (Ascii.eqb c "-");
      eauto using parseLongArg_shaped, parseShortArg_shaped,
        parseLongArg_not_help, parseShortArg_not_help. }
  destruct c as [[] [] [] [] [] [] [] []]; try exact Hgo.
  destruct body; [discriminate|exact Hgo].
Qed.

(** The parser of the root command never asks for help by an error: the
    help flag and its shorthand are always defined. *)
Lemma Parse_not_help (w : World) e :
  parsedFlags w = inr e → e ≠ pflag.ErrHelp.
Proof.
  unfold parsedFlags, pflag.Parse.
  apply (parseArgs_not_help (List.length (Args w))); [done|].
  exists EmptyString, false, false, false, false, false, [].
  split; [reflexivity|]. by repeat split.
Qed.

End parse_errors.

(** ** Refusals and failures *)

Section failure_facts.
Context {W D : Type} `{Decoder D}.
Implicit Types (l : Loader) (w : World) (pv : VersionPrinter W)
  (fs : pflag.FlagSet) (elem : option ValueKind).

Lemma call_unparsed_stop l w elem pv (s : W) (d : D) e :
  parsedFlags w = inr e →
  call l w (Pointer elem) (Some pv) (Some s) d
  = ((LoadResultStop, Some (ExecuteRootCommand e)),
     mkState (Some s) d [FlagsParsed (Args w); ErrorShown e]).
Proof.
  intros Hp. pose proof (Parse_not_help _ _ Hp) as Hne.
  unfold call, Load, theWriter, bind at 1. cbn [sink KindOf negb bool_decide].
  rewrite bool_decide_eq_true_2 by done. cbn [negb].
  rewrite buildRootCommand_eq.
  unfold cobra.Execute, cobra.execute, bind, emit, ret.
  cbn [cobra.Flags cobra.Run cobra.PreRunE sink dest trace app].
  unfold parsedFlags, rootFlags in Hp. rewrite Hp.
  by rewrite bool_decide_eq_false_2.
Qed.

Lemma unchanged_help_off fs :
  shaped fs → pflag.IsChanged fs "help" = false → helpFlag fs = false.
Proof.
  intros (c & cc & v & vc & h & hc & pos & -> & (Hc & Hv & Hh)).
  unfold pflag.IsChanged, helpFlag, pflag.GetBool. cbn. intros ->.
  rewrite (Hh eq_refl). done.
Qed.

(** X1. A call whose destination is no pointer, whose printer is nil or
    whose sink is nil is refused with Stop and the error of the first of
    these checks that fails, in this order; the error is of kind
    InvalidArgument, and nothing was parsed, read, printed or written: the
    sink and the destination are as they were and no action was taken. *)
Theorem Load_refuses_in_order l w (cfg : Any)
    (printVersion : option (VersionPrinter W)) (writer : option W) (d : D) :
  KindOf cfg ≠ Ptr ∨ printVersion = None ∨ writer = None →
  call l w cfg printVersion writer d
  = ((LoadResultStop, Some (refusal cfg printVersion)), mkState writer d [])
  ∧ kind_of (refusal cfg printVersion) = InvalidArgument.
Proof.
  intros Hbad. unfold call, Load, theWriter, bind, ret. cbn [sink].
  destruct cfg as [k|elem]; cbn; [done|].
  destruct printVersion as [pv|]; [|done].
  destruct writer as [s|]; [|done].
  destruct Hbad as [?|[?|?]]; done.
Qed.

(** X2. When the command line names none of cobra's own commands and
    does not parse (an unknown flag, a flag without its argument, a bool
    flag with a value that is no bool), Load
    returns Stop with the parser's error wrapped; cobra shows the error,
    the printer is not called, no file is read, and the sink and the
    destination are as they were. *)
Theorem Load_stops_on_parse_error l w elem pv (s : W) (d : D) e :
  rootCommandLine (Args w) →
  parsedFlags w = inr e →
  let r := call l w (Pointer elem) (Some pv) (Some s) d in
  r.1 = (LoadResultStop, Some (ExecuteRootCommand e))
  ∧ Unwrap (ExecuteRootCommand e) = Some e
  ∧ trace r.2 = [FlagsParsed (Args w); ErrorShown e]
  ∧ sink r.2 = Some s
  ∧ dest r.2 = d.
Proof. intros _ Hp. cbn zeta. by rewrite (call_unparsed_stop _ _ _ _ _ _ _ Hp). Qed.

(** X3. On a command line that names none of cobra's own commands, when
    viper fails to read the file at the resolved path with an error
    other than its not-found error (a file that does not parse, an
    unsupported type, a file that cannot be opened), Load returns Stop with
    an error that names the resolved path and wraps viper's error; the
    settings are not unmarshalled, and the sink and the destination are as
    they were. *)
Theorem Load_reports_unreadable_file l w elem pv (s : W) (d : D) fs e :
  rootCommandLine (Args w) →
  parsedFlags w = inl fs →
  helpFlag fs = false →
  versionFlag l w fs = false →
  ReadFile w (resolvedPath l w fs) = inr e →
  viper.IsConfigFileNotFound e = false →
  let r := call l w (Pointer elem) (Some pv) (Some s) d in
  let path := resolvedPath l w fs in
  r.1 = (LoadResultStop, Some (ExecuteRootCommand (ReadMainConfigAt path e)))
  ∧ Unwrap (ReadMainConfigAt path e) = Some e
  ∧ trace r.2 = [FlagsParsed (Args w); ConfigFileSet path; ConfigRead path;
                 ErrorShown (ReadMainConfigAt path e)]
  ∧ sink r.2 = Some s
  ∧ dest r.2 = d.
Proof.
  intros _ Hp Hh Hv Hr He. cbn zeta.
  rewrite (call_parsed _ _ _ _ _ _ _ Hp), Hh. cbn zeta.
  rewrite PreRunE_config by done. cbn zeta. rewrite Hr, He. done.
Qed.

(** X4. On a command line that names none of cobra's own commands, when
    the file is read and the decoder fails on the merged settings, Load
    returns Stop with the decoder's error wrapped, and the
    destination is what the decoder left: fields it wrote before it failed
    stay written. The sink is as it was. *)
Theorem Load_keeps_partial_decode l w (k : ValueKind) pv (s : W) (d d' : D)
    fs settings e :
  rootCommandLine (Args w) →
  parsedFlags w = inl fs →
  helpFlag fs = false →
  versionFlag l w fs = false →
  ReadFile w (resolvedPath l w fs) = inl settings →
  Decode (viper.AllSettings
            (loadedViper l settings (resolvedPath l w fs)) fs w) d
  = (d', Some e) →
  let r := call l w (Pointer (Some k)) (Some pv) (Some s) d in
  r.1 = (LoadResultStop, Some (ExecuteRootCommand (UnmarshalMainConfig e)))
  ∧ dest r.2 = d'
  ∧ sink r.2 = Some s.
Proof.
  intros _ Hp Hh Hv Hr Hd. cbn zeta.
  rewrite (call_parsed _ _ _ _ _ _ _ Hp), Hh. cbn zeta.
  rewrite PreRunE_config by done. cbn zeta. rewrite Hr. cbn [dest].
  rewrite Hd. done.
Qed.

(** X5. When the command line names none of cobra's own commands,
    neither [--help] nor [--version] occurs on it, the hook's version flag is false, the file at the resolved path is read
    and the decoder succeeds, Load returns (Continue, nil); the destination
    is what the decoder made of the merged settings, the sink is as it was,
    and the call did four things in this order: parse, set the path, read
    the file, unmarshal. *)
Theorem Load_continues_with_config l w (k : ValueKind) pv (s : W) (d d' : D)
    fs settings :
  rootCommandLine (Args w) →
  parsedFlags w = inl fs →
  pflag.IsChanged fs "help" = false →
  pflag.IsChanged fs "version" = false →
  versionFlag l w fs = false →
  ReadFile w (resolvedPath l w fs) = inl settings →
  Decode (viper.AllSettings
            (loadedViper l settings (resolvedPath l w fs)) fs w) d
  = (d', None) →
  call l w (Pointer (Some k)) (Some pv) (Some s) d
  = ((LoadResultContinue, None),
     mkState (Some s) d'
             [FlagsParsed (Args w); ConfigFileSet (resolvedPath l w fs);
              ConfigRead (resolvedPath l w fs); Unmarshalled]).
Proof.
  intros _ Hp Hch Hcv Hv Hr Hd.
  rewrite (call_parsed _ _ _ _ _ _ _ Hp).
  rewrite (unchanged_help_off fs) by eauto using Parse_shaped. cbn zeta.
  rewrite PreRunE_config by done. cbn zeta. rewrite Hr. cbn [dest].
  rewrite Hd, Hch, Hcv. done.
Qed.

(** X18. Over a file system, on a command line that names none of
    cobra's own commands, a call that gets to the config file and finds
    no file at the resolved path returns Stop with "config file not
    found at" only when the resolved path is empty (no flag, no variable
    and an empty fallback: viper searched and found nothing); for a path
    that is not empty it returns Stop with "read main config at", which
    wraps the error of opening the file. The sink and the destination
    are as they were. *)
Theorem Load_reports_missing_file l w elem pv (s : W) (d : D) fs (files : Files) :
  rootCommandLine (Args w) →
  parsedFlags w = inl fs →
  helpFlag fs = false →
  versionFlag l w fs = false →
  ReadFile w = readFrom files →
  files !! resolvedPath l w fs = None →
  let path := resolvedPath l w fs in
  let r := call l w (Pointer elem) (Some pv) (Some s) d in
  (∃ cause,
     r.1 = (LoadResultStop,
            Some (ExecuteRootCommand
                    (if bool_decide (path = EmptyString)
                     then ConfigFileNotFoundAt path
                     else ReadMainConfigAt path cause)))
     ∧ ReadFile w path = inr cause
     ∧ viper.IsConfigFileNotFound cause = bool_decide (path = EmptyString))
  ∧ sink r.2 = Some s
  ∧ dest r.2 = d.
Proof.
  intros _ Hp Hh Hv Hfs Hnone. cbn zeta.
  rewrite (call_parsed _ _ _ _ _ _ _ Hp), Hh. cbn zeta.
  rewrite PreRunE_config by done. cbn zeta. rewrite Hfs.
  unfold readFrom. rewrite Hnone.
  destruct (String.eqb_spec (resolvedPath l w fs) EmptyString) as [He|He].
  - rewrite bool_decide_eq_true_2 by done. cbn.
    split; [|done]. by eexists.
  - rewrite bool_decide_eq_false_2 by done. cbn.
    split; [|done]. by eexists.
Qed.

End failure_facts.

(** ** All the ways a call can go *)

Section case_facts.
Context {W D : Type} `{Decoder D}.
Implicit Types (l : Loader) (w : World) (pv : VersionPrinter W)
  (fs : pflag.FlagSet) (elem : option ValueKind).

Lemma helpFlag_changed fs :
  shaped fs → helpFlag fs = true → pflag.IsChanged fs "help" = true.
Proof.
  intros (c & cc & v & vc & h & hc & pos & -> & (Hc & Hv & Hh)).
  unfold pflag.IsChanged, helpFlag, pflag.GetBool. cbn.
  rewrite ParseBool_Format. intros Hb%bool_decide_eq_true. injection Hb as ->.
  destruct hc; [done|]. by specialize (Hh eq_refl).
Qed.

(** Case analysis on a call: refused, not parsed, help, version (printer
    failing or not), file not read, nil destination, decoder failing or
    not. *)
Lemma call_cases l w (cfg : Any) (printVersion : option (VersionPrinter W))
    (writer : option W) (d : D)
    (P : (LoadResult * option error) * State W D → Prop) :
  (KindOf cfg ≠ Ptr ∨ printVersion = None ∨ writer = None →
   P ((LoadResultStop, Some (refusal cfg printVersion)), mkState writer d [])) →
  (∀ elem pv s e,
     cfg = Pointer elem → printVersion = Some pv → writer = Some s →
     parsedFlags w = inr e →
     P ((LoadResultStop, Some (ExecuteRootCommand e)),
        mkState (Some s) d [FlagsParsed (Args w); ErrorShown e])) →
  (∀ elem pv s fs,
     cfg = Pointer elem → printVersion = Some pv → writer = Some s →
     parsedFlags w = inl fs → helpFlag fs = true →
     P ((LoadResultStop, None),
        mkState (Some s) d [FlagsParsed (Args w); HelpShown])) →
  (∀ elem pv s fs s' e,
     cfg = Pointer elem → printVersion = Some pv → writer = Some s →
     parsedFlags w = inl fs → helpFlag fs = false → versionFlag l w fs = true →
     pv (Some s) = (s', Some e) →
     P ((LoadResultStop, Some (ExecuteRootCommand (PrintVersionFailed e))),
        mkState s' d [FlagsParsed (Args w); VersionPrinterCalled;
                      ErrorShown (PrintVersionFailed e)])) →
  (∀ elem pv s fs s',
     cfg = Pointer elem → printVersion = Some pv → writer = Some s →
     parsedFlags w = inl fs → helpFlag fs = false → versionFlag l w fs = true →
     pv (Some s) = (s', None) →
     P ((if pflag.IsChanged fs "help" || pflag.IsChanged fs "version"
         then LoadResultStop else LoadResultContinue, None),
        mkState s' d [FlagsParsed (Args w); VersionPrinterCalled])) →
  (∀ elem pv s fs e,
     cfg = Pointer elem → printVersion = Some pv → writer = Some s →
     parsedFlags w = inl fs → helpFlag fs = false → versionFlag l w fs = false →
     ReadFile w (resolvedPath l w fs) = inr e →
     let path := resolvedPath l w fs in
     let c := if viper.IsConfigFileNotFound e then ConfigFileNotFoundAt path
              else ReadMainConfigAt path e in
     P ((LoadResultStop, Some (ExecuteRootCommand c)),
        mkState (Some s) d [FlagsParsed (Args w); ConfigFileSet path;
                            ConfigRead path; ErrorShown c])) →
  (∀ pv s fs settings,
     cfg = Pointer None → printVersion = Some pv → writer = Some s →
     parsedFlags w = inl fs → helpFlag fs = false → versionFlag l w fs = false →
     ReadFile w (resolvedPath l w fs) = inl settings →
     let path := resolvedPath l w fs in
     let c := UnmarshalMainConfig (Foreign "result must be addressable (a pointer)") in
     P ((LoadResultStop, Some (ExecuteRootCommand c)),
        mkState (Some s) d [FlagsParsed (Args w); ConfigFileSet path;
                            ConfigRead path; Unmarshalled; ErrorShown c])) →
  (∀ k pv s fs settings d' e,
     cfg = Pointer (Some k) → printVersion = Some pv → writer = Some s →
     parsedFlags w = inl fs → helpFlag fs = false → versionFlag l w fs = false →
     ReadFile w (resolvedPath l w fs) = inl settings →
     Decode (viper.AllSettings
               (loadedViper l settings (resolvedPath l w fs)) fs w) d
     = (d', Some e) →
     let path := resolvedPath l w fs in
     P ((LoadResultStop, Some (ExecuteRootCommand (UnmarshalMainConfig e))),
        mkState (Some s) d' [FlagsParsed (Args w); ConfigFileSet path;
                             ConfigRead path; Unmarshalled;
                             ErrorShown (UnmarshalMainConfig e)])) →
  (∀ k pv s fs settings d',
     cfg = Pointer (Some k) → printVersion = Some pv → writer = Some s →
     parsedFlags w = inl fs → helpFlag fs = false → versionFlag l w fs = false →
     ReadFile w (resolvedPath l w fs) = inl settings →
     Decode (viper.AllSettings
               (loadedViper l settings (resolvedPath l w fs)) fs w) d
     = (d', None) →
     let path := resolvedPath l w fs in
     P ((if pflag.IsChanged fs "help" || pflag.IsChanged fs "version"
         then LoadResultStop else LoadResultContinue, None),
        mkState (Some s) d' [FlagsParsed (Args w); ConfigFileSet path;
                             ConfigRead path; Unmarshalled])) →
  P (call l w cfg printVersion writer d).
Proof.
  intros Hrefused Hunparsed Hhelp Hvfail Hvok Hread Hnil Hdfail Hdok.
  destruct (decide (KindOf cfg ≠ Ptr ∨ printVersion = None ∨ writer = None))
    as [Hbad|Hok].
  { specialize (Hrefused Hbad). revert Hrefused.
    unfold call, Load, theWriter, bind, ret. cbn [sink].
    destruct cfg as [k|elem]; cbn; [done|].
    destruct printVersion as [pv|]; [|done].
    destruct writer as [s|]; [|done].
    destruct Hbad as [?|[?|?]]; done. }
  destruct cfg as [k|elem]; [destruct Hok; by left|].
  destruct printVersion as [pv|]; [|destruct Hok; auto].
  destruct writer as [s|]; [|destruct Hok; auto].
  destruct (parsedFlags w) as [fs|e] eqn:Hp.
  2: { rewrite (call_unparsed_stop _ _ _ _ _ _ _ Hp). eauto. }
  rewrite (call_parsed _ _ _ _ _ _ _ Hp).
  destruct (helpFlag fs) eqn:Hh; [eauto|]. cbn zeta.
  destruct (versionFlag l w fs) eqn:Hv.
  - rewrite PreRunE_version by done. cbn [fst snd sink dest trace app].
    destruct (pv (Some s)) as [s' [e|]] eqn:Hpv; cbn; eauto.
  - rewrite PreRunE_config by done. cbn zeta. cbn [sink dest trace].
    destruct (ReadFile w _) as [settings|e] eqn:Hr; cbn [fst snd sink dest trace app].
    + destruct elem as [k|]; cbn [fst snd sink dest trace app]; [|eauto].
      destruct (Decode _ _) as [d' [e|]] eqn:Hd; cbn; eauto.
    + specialize (Hread elem pv s fs e eq_refl eq_refl eq_refl eq_refl Hh Hv Hr).
      cbn zeta in Hread. by destruct (viper.IsConfigFileNotFound e).
Qed.

End case_facts.

(** ** What the results tell the caller *)

Section result_meaning.
Context {W D : Type} `{Decoder D}.
Implicit Types (l : Loader) (w : World) (fs : pflag.FlagSet).

(** X6. On a command line that names none of cobra's own commands: when
    Load returns Continue, there is no error, the arguments were
    valid, the command line parsed, and neither [--help] nor [--version]
    occurred on it. If moreover the hook's version flag is false (no
    version variable in the environment), the file at the resolved path
    was read, the decoder succeeded, the destination is what it made of
    the merged settings, and the sink is as it was. *)
Theorem Continue_means_loaded l w (cfg : Any)
    (printVersion : option (VersionPrinter W)) (writer : option W) (d : D) :
  rootCommandLine (Args w) →
  let r := call l w cfg printVersion writer d in
  r.1.1 = LoadResultContinue →
  r.1.2 = None
  ∧ ∃ elem pv s fs,
      cfg = Pointer elem ∧ printVersion = Some pv ∧ writer = Some s
      ∧ parsedFlags w = inl fs
      ∧ pflag.IsChanged fs "help" = false
      ∧ pflag.IsChanged fs "version" = false
      ∧ (versionFlag l w fs = false →
         sink r.2 = Some s
         ∧ ∃ settings,
             ReadFile w (resolvedPath l w fs) = inl settings
             ∧ Decode (viper.AllSettings
                         (loadedViper l settings (resolvedPath l w fs)) fs w) d
               = (dest r.2, None)).
Proof.
  intros _. cbn zeta. apply call_cases; cbn [fst snd sink dest]; try discriminate.
  - intros elem pv s fs s' -> -> -> Hp Hh Hv Hpv.
    destruct (pflag.IsChanged fs "help") eqn:Hch; [discriminate|].
    destruct (pflag.IsChanged fs "version") eqn:Hcv; [discriminate|].
    intros _. split; [done|]. exists elem, pv, s, fs.
    do 6 (split; [done|]). intros ?. congruence.
  - intros k pv s fs settings d' -> -> -> Hp Hh Hv Hr Hd.
    destruct (pflag.IsChanged fs "help") eqn:Hch; [discriminate|].
    destruct (pflag.IsChanged fs "version") eqn:Hcv; [discriminate|].
    intros _. split; [done|]. exists (Some k), pv, s, fs.
    do 6 (split; [done|]). intros _. split; [done|]. eauto.
Qed.

(** X7. On a command line that names none of cobra's own commands: when
    Load returns no error, the arguments were valid and the command line
    parsed, and the result is Stop exactly when [--help] or
    [--version] occurred on the command line, with whatever value;
    otherwise it is Continue. *)
Theorem result_follows_command_line l w (cfg : Any)
    (printVersion : option (VersionPrinter W)) (writer : option W) (d : D) :
  rootCommandLine (Args w) →
  let r := call l w cfg printVersion writer d in
  r.1.2 = None →
  ∃ fs, parsedFlags w = inl fs
        ∧ r.1.1 = if pflag.IsChanged fs "help" || pflag.IsChanged fs "version"
                  then LoadResultStop else LoadResultContinue.
Proof.
  intros _. cbn zeta. apply call_cases; cbn [fst snd]; try discriminate.
  - intros elem pv s fs _ _ _ Hp Hh _. exists fs. split; [done|].
    by rewrite (helpFlag_changed fs) by eauto using Parse_shaped.
  - intros elem pv s fs s' _ _ _ Hp _ _ _ _. by exists fs.
  - intros k pv s fs settings d' _ _ _ Hp _ _ _ _ _. by exists fs.
Qed.

(** X8. The destination is written by the decoder only: after any call it
    is as it was, unless the arguments were valid, the command line parsed
    with the help flag not set, the hook's version flag is false and the
    file at the resolved path was read; then it is what the decoder left,
    whether the decoder failed or not. *)
Theorem destination_written_only_by_decoder l w (cfg : Any)
    (printVersion : option (VersionPrinter W)) (writer : option W) (d : D) :
  let r := call l w cfg printVersion writer d in
  (dest r.2 = d ∧ Unmarshalled ∉ trace r.2)
  ∨ (∃ k fs settings,
       cfg = Pointer (Some k) ∧ parsedFlags w = inl fs
       ∧ helpFlag fs = false ∧ versionFlag l w fs = false
       ∧ ReadFile w (resolvedPath l w fs) = inl settings
       ∧ dest r.2
         = (Decode (viper.AllSettings
                      (loadedViper l settings (resolvedPath l w fs)) fs w) d).1)
  ∨ (cfg = Pointer None ∧ dest r.2 = d).
Proof.
  assert (Habsent : ∀ t : list Event,
            bool_decide (Unmarshalled ∈ t) = false → Unmarshalled ∉ t).
  { intros t. apply bool_decide_eq_false_1. }
  cbn zeta. apply call_cases; cbn [fst snd sink dest trace].
  - intros _. left. split; [done|]. apply not_elem_of_nil.
  - intros. left. split; [done|]. by apply Habsent.
  - intros. left. split; [done|]. by apply Habsent.
  - intros. left. split; [done|]. by apply Habsent.
  - intros. left. split; [done|]. by apply Habsent.
  - intros. left. split; [done|]. by apply Habsent.
  - intros. right. right. done.
  - intros k pv s fs settings d' e -> _ _ Hp Hh Hv Hr Hd. right. left.
    exists k, fs, settings. repeat split; try done. by rewrite Hd.
  - intros k pv s fs settings d' -> _ _ Hp Hh Hv Hr Hd. right. left.
    exists k, fs, settings. repeat split; try done. by rewrite Hd.
Qed.

Lemma printerCalls_cons (e : Event) (t : list Event) :
  printerCalls (e :: t)
  = ((if bool_decide (e = VersionPrinterCalled) then 1 else 0) + printerCalls t)%nat.
Proof.
  unfold printerCalls. rewrite filter_cons.
  case_bool_decide; [by rewrite decide_True|by rewrite decide_False].
Qed.

Lemma configReads_cons (e : Event) (t : list Event) :
  configReads (e :: t) = ((if isConfigRead e then 1 else 0) + configReads t)%nat.
Proof.
  unfold configReads. rewrite filter_cons.
  destruct (isConfigRead e); [by rewrite decide_True|by rewrite decide_False].
Qed.

(** X9. A call is a single pass: it calls the version printer or reads a
    config file, never both, and each at most once; whatever it does, it
    first hands the arguments of the process to the parser. *)
Theorem Load_is_single_pass l w (cfg : Any)
    (printVersion : option (VersionPrinter W)) (writer : option W) (d : D) :
  let r := call l w cfg printVersion writer d in
  (printerCalls (trace r.2) + configReads (trace r.2) ≤ 1)%nat
  ∧ (trace r.2 = [] ∨ ∃ rest, trace r.2 = FlagsParsed (Args w) :: rest).
Proof.
  cbn zeta. apply call_cases; cbn [fst snd sink dest trace]; intros;
    (split; [|eauto]);
    rewrite ?printerCalls_cons, ?configReads_cons;
    repeat case_bool_decide; try discriminate; cbn; lia.
Qed.

(** X10. On a command line that names none of cobra's own commands,
    every error Load returns comes with Stop, and it is either the
    refusal of the arguments or the error of running the command wrapped
    once: the parser's error, the printer's error, or an error of reading
    or decoding the config file. Building the command never fails. *)
Theorem Load_errors l w (cfg : Any)
    (printVersion : option (VersionPrinter W)) (writer : option W) (d : D) e :
  rootCommandLine (Args w) →
  let r := call l w cfg printVersion writer d in
  r.1.2 = Some e →
  r.1.1 = LoadResultStop
  ∧ (e = refusal cfg printVersion
     ∨ ∃ c, e = ExecuteRootCommand c
            ∧ (parsedFlags w = inr c
               ∨ (∃ x, c = PrintVersionFailed x)
               ∨ (∃ p, c = ConfigFileNotFoundAt p)
               ∨ (∃ p x, c = ReadMainConfigAt p x)
               ∨ (∃ x, c = UnmarshalMainConfig x))).
Proof.
  intros _. cbn zeta. apply call_cases; cbn [fst snd]; try discriminate.
  - intros _ [= <-]. auto.
  - intros elem pv s c _ _ _ Hp [= <-]. split; [done|]. right. eauto.
  - intros elem pv s fs s' x _ _ _ _ _ _ _ [= <-]. split; [done|].
    right. eexists. split; [done|]. eauto 6.
  - intros elem pv s fs x _ _ _ _ _ _ _ [= <-]. split; [done|].
    right. eexists. split; [done|].
    destruct (viper.IsConfigFileNotFound x); eauto 8.
  - intros pv s fs settings _ _ _ _ _ _ _ [= <-]. split; [done|].
    right. eexists. split; [done|]. eauto 8.
  - intros k pv s fs settings d' x _ _ _ _ _ _ _ _ [= <-]. split; [done|].
    right. eexists. split; [done|]. eauto 8.
Qed.

End result_meaning.

(** ** The command line *)

Section command_line_facts.
Context {W D : Type} `{Decoder D}.
Implicit Types (l : Loader) (w : World) (pv : VersionPrinter W)
  (fs : pflag.FlagSet) (elem : option ValueKind).

(** The outcome of a call depends on the command line through the flags
    the parser set only, not through the arguments it left over. *)
Lemma outcome_by_flags l w (a b : list string) elem pv (s : W) (d : D) fs fs' :
  parsedFlags (withArgs w a) = inl fs →
  parsedFlags (withArgs w b) = inl fs' →
  pflag.formal fs = pflag.formal fs' →
  outcome (call l (withArgs w a) (Pointer elem) (Some pv) (Some s) d)
  = outcome (call l (withArgs w b) (Pointer elem) (Some pv) (Some s) d).
Proof.
  intros Ha Hb Hf.
  pose proof (Parse_shaped _ _ Ha) as (c & cc & v & vc & h & hc & pos & -> & _).
  pose proof (Parse_shaped _ _ Hb) as (c' & cc' & v' & vc' & h' & hc' & pos' & -> & _).
  cbn in Hf.
  assert (c' = c ∧ cc' = cc ∧ v' = v ∧ vc' = vc ∧ h' = h ∧ hc' = hc)
    as (-> & -> & -> & -> & -> & ->).
  { injection Hf as -> -> Hv -> Hh ->.
    repeat split; [by destruct v, v'|by destruct h, h']. }
  clear Hf.
  rewrite (call_parsed _ _ _ _ _ _ _ Ha), (call_parsed _ _ _ _ _ _ _ Hb).
  change (helpFlag (flagsOf c cc v vc h hc pos'))
    with (helpFlag (flagsOf c cc v vc h hc pos)).
  destruct (helpFlag _); [reflexivity|]. cbn zeta.
  change (pflag.IsChanged (flagsOf c cc v vc h hc pos') "help")
    with (pflag.IsChanged (flagsOf c cc v vc h hc pos) "help").
  change (pflag.IsChanged (flagsOf c cc v vc h hc pos') "version")
    with (pflag.IsChanged (flagsOf c cc v vc h hc pos) "version").
  assert (Hv : versionFlag l (withArgs w b) (flagsOf c cc v vc h hc pos')
               = versionFlag l (withArgs w a) (flagsOf c cc v vc h hc pos))
    by reflexivity.
  destruct (versionFlag l (withArgs w a) (flagsOf c cc v vc h hc pos)) eqn:Hva.
  - rewrite !PreRunE_version by done. cbn [fst snd sink dest trace].
    by destruct (pv (Some s)) as [s' [e|]].
  - rewrite !PreRunE_config by done. cbn zeta. cbn [sink dest trace].
    change (resolvedPath l (withArgs w b) (flagsOf c cc v vc h hc pos'))
      with (resolvedPath l (withArgs w a) (flagsOf c cc v vc h hc pos)).
    change (ReadFile (withArgs w b)) with (ReadFile (withArgs w a)).
    destruct (ReadFile (withArgs w a) _) as [settings|e]; [|reflexivity].
    destruct elem as [k|]; [|reflexivity].
    change (viper.AllSettings
              (loadedViper l settings
                 (resolvedPath l (withArgs w a) (flagsOf c cc v vc h hc pos)))
              (flagsOf c cc v vc h hc pos') (withArgs w b))
      with (viper.AllSettings
              (loadedViper l settings
                 (resolvedPath l (withArgs w a) (flagsOf c cc v vc h hc pos)))
              (flagsOf c cc v vc h hc pos) (withArgs w a)).
    by destruct (Decode _ _) as [d' [e|]].
Qed.

End command_line_facts.

Section spelling_facts.
Context {W D : Type} `{Decoder D}.
Implicit Types (l : Loader) (w : World) (pv : VersionPrinter W)
  (fs : pflag.FlagSet) (elem : option ValueKind).

Lemma parseArgs_positional (a : list string) : ∀ fs,
  Forall (fun s => positional s = true) a →
  pflag.parseArgs fs a = inl (pflag.addArg fs a).
Proof.
  induction a as [|s rest IH]; intros fs Hall.
  { cbn. unfold pflag.addArg. rewrite app_nil_r. by destruct fs. }
  apply Forall_cons in Hall as [Hs Hrest].
  assert (Hgo : pflag.parseArgs (pflag.addArg fs [s]) rest
                = inl (pflag.addArg fs (s :: rest))).
  { rewrite IH by done. unfold pflag.addArg. cbn. by rewrite <- app_assoc. }
  cbn [pflag.parseArgs].
  destruct s as [|c s]; [exact Hgo|].
  destruct c as [[] [] [] [] [] [] [] []]; try exact Hgo.
  destruct s as [|c' body]; [exact Hgo|]. discriminate.
Qed.

(** X11. The spellings of a flag are interchangeable: [--config=PATH] and
    [-c PATH] give the outcome of [--config PATH] for every path, [-v]
    that of [--version], and [-h] that of [--help]: the same results, the
    same sink and the same destination, for every loader, environment,
    file system, printer, sink and destination. *)
Theorem flag_spellings_agree l w elem pv (s : W) (d : D) (path : string) :
  let run := fun a =>
    outcome (call l (withArgs w a) (Pointer elem) (Some pv) (Some s) d) in
  run ["--config=" +:+ path] = run ["--config"; path]
  ∧ run ["-c"; path] = run ["--config"; path]
  ∧ run ["-v"] = run ["--version"]
  ∧ run ["-h"] = run ["--help"].
Proof.
  cbn zeta. split; [|split; [|split]].
  - by apply (outcome_by_flags _ _ _ _ _ _ _ _
             (flagsOf path true false false false false [])
             (flagsOf path true false false false false [])).
  - by apply (outcome_by_flags _ _ _ _ _ _ _ _
             (flagsOf path true false false false false [])
             (flagsOf path true false false false false [])).
  - by apply (outcome_by_flags _ _ _ _ _ _ _ _
             (flagsOf EmptyString false true true false false [])
             (flagsOf EmptyString false true true false false [])).
  - by apply (outcome_by_flags _ _ _ _ _ _ _ _
             (flagsOf EmptyString false false false true true [])
             (flagsOf EmptyString false false false true true [])).
Qed.

(** X12. Arguments that are no flags are accepted and ignored: a command
    line made only of texts that are empty, do not start with a dash, or
    are the single dash, none of them the name of one of cobra's own
    commands ([__complete], [__completeNoDesc], [completion]), gives the
    outcome of the empty command line. *)
Theorem positional_arguments_are_ignored l w elem pv (s : W) (d : D)
    (a : list string) :
  Forall (fun x => positional x = true) a →
  rootCommandLine a →
  outcome (call l (withArgs w a) (Pointer elem) (Some pv) (Some s) d)
  = outcome (call l (withArgs w []) (Pointer elem) (Some pv) (Some s) d).
Proof.
  intros Ha _.
  apply (outcome_by_flags _ _ _ _ _ _ _ _
           (flagsOf EmptyString false false false false false a)
           (flagsOf EmptyString false false false false false [])); try done.
  unfold parsedFlags, pflag.Parse. cbn [withArgs Args].
  by rewrite parseArgs_positional.
Qed.

End spelling_facts.

Lemma positional_arguments_are_ignored_witness :
  let a := ["serve"; "-"; EmptyString; "8080"] in
  let out := outcome (call testLoader (withArgs (testWorld [] ∅) a)
                           (Pointer (Some Struct))
                           (Some (PlainVersionPrinter "v1.0.0"))
                           (Some emptyBuffer) emptyConfig) in
  Forall (fun x => positional x = true) a
  ∧ rootCommandLine a
  ∧ out = outcome (testCall testLoader (testWorld [] ∅))
  ∧ out = ((LoadResultContinue, None), Some emptyBuffer,
           {| LogLevel := "info"; Port := 8080 |}).
Proof.
  cbn zeta.
  assert (Ha : Forall (fun x => positional x = true)
                 ["serve"; "-"; EmptyString; "8080"]).
  { repeat constructor. }
  assert (Hb : rootCommandLine ["serve"; "-"; EmptyString; "8080"]).
  { by vm_compute. }
  split; [exact Ha|]. split; [exact Hb|].
  pose proof (positional_arguments_are_ignored testLoader (testWorld [] ∅)
                (Some Struct) (PlainVersionPrinter "v1.0.0") emptyBuffer
                emptyConfig ["serve"; "-"; EmptyString; "8080"] Ha Hb) as Hout.
  split; [exact Hout|]. rewrite Hout. by vm_compute.
Defined.

(** ** The environment *)

Section environment_facts.
Implicit Types (l : Loader) (w : World) (fs : pflag.FlagSet).

Lemma map_bytes_app f (a b : string) :
  strings.map_bytes f (a +:+ b) = strings.map_bytes f a +:+ strings.map_bytes f b.
Proof.
  induction a as [|c a IH]; [done|].
  change (strings.map_bytes f (String c (a +:+ b))
          = String (f c) (strings.map_bytes f a +:+ strings.map_bytes f b)).
  cbn [strings.map_bytes]. by f_equal.
Qed.

Lemma map_bytes_compose f g (a : string) :
  strings.map_bytes f (strings.map_bytes g a) = strings.map_bytes (fun c => f (g c)) a.
Proof. induction a as [|c a IH]; cbn; [done|]. by f_equal. Qed.

Lemma map_bytes_ext f g (a : string) :
  (∀ c, f c = g c) → strings.map_bytes f a = strings.map_bytes g a.
Proof. intros Hfg. induction a as [|c a IH]; cbn; [done|]. by f_equal. Qed.

Lemma shout_upper (t : string) : shout (strings.ToUpper t) = shout t.
Proof.
  unfold shout, strings.ReplaceDots, strings.ToUpper.
  rewrite !map_bytes_compose. apply map_bytes_ext.
  intros [[] [] [] [] [] [] [] []]; by vm_compute.
Qed.

Lemma shout_dots (t : string) : shout (strings.ReplaceDots t) = shout t.
Proof.
  unfold shout, strings.ReplaceDots, strings.ToUpper.
  rewrite !map_bytes_compose. apply map_bytes_ext.
  intros [[] [] [] [] [] [] [] []]; by vm_compute.
Qed.

(** X13. For a prefix and a key of ASCII bytes, the variable consulted
    for the key is the prefix, an underscore and the key, all in upper
    case with every dot turned into an underscore, in the prefix too;
    with an empty prefix it is the key alone, without a leading
    underscore. Keys that differ only in the case of their letters or in
    dots against underscores share one variable. *)
Theorem environment_variable_name l (key : string) :
  isASCII l.(envPrefix) = true →
  isASCII key = true →
  envName l key
  = (if bool_decide (l.(envPrefix) = EmptyString) then shout key
     else shout l.(envPrefix) +:+ "_" +:+ shout key)
  ∧ envName l (strings.ToUpper key) = envName l key
  ∧ envName l (strings.ReplaceDots key) = envName l key.
Proof.
  assert (Hname : ∀ k, envName l k
    = (if bool_decide (l.(envPrefix) = EmptyString) then shout k
       else shout l.(envPrefix) +:+ "_" +:+ shout k)).
  { intros k. unfold envName, viper.mergeWithEnvPrefix, shout.
    cbn [boundViper viper.envPrefix].
    case_bool_decide; [done|].
    unfold strings.ReplaceDots, strings.ToUpper.
    by rewrite !map_bytes_app. }
  intros _ _. split; [apply Hname|].
  rewrite !Hname, shout_upper, shout_dots. done.
Qed.

(** The names of the README and of the test suite. *)
Example environment_variable_names :
  envName testLoader "config" = "TESTAPP_CONFIG"
  ∧ envName testLoader "log_level" = "TESTAPP_LOG_LEVEL"
  ∧ envName (NewLoader "myapp" "My App" EmptyString "config.yaml" "myapp") "db.url"
    = "MYAPP_DB_URL"
  ∧ envName (NewLoader "myapp" "My App" EmptyString "config.yaml" EmptyString) "db.url"
    = "DB_URL".
Proof. repeat split; by vm_compute. Qed.

Lemma environment_variable_name_witness :
  let l := NewLoader "myapp" "My App" EmptyString "config.yaml" "my.app" in
  isASCII l.(envPrefix) = true
  ∧ isASCII "db.Url" = true
  ∧ envName l "db.Url" = "MY_APP_DB_URL"
  ∧ envName l "DB.URL" = "MY_APP_DB_URL"
  ∧ envName l "db_Url" = "MY_APP_DB_URL".
Proof.
  cbn zeta. split; [by vm_compute|]. split; [by vm_compute|].
  destruct (environment_variable_name
              (NewLoader "myapp" "My App" EmptyString "config.yaml" "my.app") "db.Url"
              ltac:(vm_compute; reflexivity) ltac:(vm_compute; reflexivity))
    as (Hname & Hupper & Hdots).
  split; [rewrite Hname; by vm_compute|].
  split.
  - change "DB.URL" with (strings.ToUpper "db.Url").
    rewrite Hupper, Hname. by vm_compute.
  - change "db_Url" with (strings.ReplaceDots "db.Url").
    rewrite Hdots, Hname. by vm_compute.
Defined.

(** X14. A variable alone does not make a setting: for a key that has no
    flag and is absent from the file, viper resolves the value of its
    variable when asked for the key, but the settings handed to the decoder
    have no entry for it, so the variable does not reach the destination. *)
Theorem variable_without_file_key_is_dropped l w fs
    (settings : gmap string Setting) (path key x : string) :
  key ≠ "config" → key ≠ "version" →
  settings !! key = None →
  envValue l w key = Some x →
  viper.Get (loadedViper l settings path) fs w key = Some (VString x)
  ∧ viper.AllSettings (loadedViper l settings path) fs w !! key = None.
Proof.
  intros Hc Hv Hs He. split.
  - by rewrite Get_key, He.
  - rewrite AllSettings_lookup. rewrite bool_decide_eq_false_2; [done|].
    rewrite Hs. intros [?|[?|[? ?]]]; done.
Qed.

(** X15. The hook's version flag: when [--version] occurred on the
    command line it is the value given there; otherwise it is the value of
    the prefix's VERSION variable read as a bool (false when the variable is
    unset, empty or no bool). *)
Theorem versionFlag_sources l w fs :
  parsedFlags w = inl fs →
  versionFlag l w fs
  = if pflag.IsChanged fs "version" then versionGiven fs
    else match envValue l w "version" with
         | Some x => default false (strconv.ParseBool x)
         | None => false
         end.
Proof.
  intros Hp.
  pose proof (Parse_shaped _ _ Hp) as (c & cc & v & vc & h & hc & pos & -> & (Hc & Hv & Hh)).
  unfold versionFlag, viper.GetBool, viper.Get, viper.find, viper.boundFlag.
  cbn [boundViper viper.pflags]. rewrite lookup_insert_eq.
  unfold pflag.IsChanged, versionGiven, pflag.GetBool. cbn.
  rewrite ParseBool_Format.
  destruct vc.
  - by destruct v.
  - rewrite (Hv eq_refl).
    change (viper.getEnv _ w _) with (envValue l w "version").
    by destruct (envValue l w "version").
Qed.

End environment_facts.

Lemma variable_without_file_key_is_dropped_witness :
  let settings : gmap string Setting := {["log_level" := VString "info"]} in
  let w := {| Args := []; Environ := {["TESTAPP_PORT" := "7070"]};
              ReadFile := fun _ => inl settings |} in
  let fs := flagsOf EmptyString false false false false false [] in
  settings !! "port" = None
  ∧ envValue testLoader w "port" = Some "7070"
  ∧ viper.Get (loadedViper testLoader settings "config.yaml") fs w "port"
    = Some (VString "7070")
  ∧ viper.AllSettings (loadedViper testLoader settings "config.yaml") fs w !! "port"
    = None
  ∧ dest (testCall testLoader w).2 = {| LogLevel := "info"; Port := 0 |}.
Proof.
  cbn zeta. split; [by vm_compute|]. split; [by vm_compute|].
  pose proof (variable_without_file_key_is_dropped testLoader
    {| Args := []; Environ := {["TESTAPP_PORT" := "7070"]};
       ReadFile := fun _ => inl {["log_level" := VString "info"]} |}
    (flagsOf EmptyString false false false false false [])
    {["log_level" := VString "info"]} "config.yaml" "port" "7070"
    ltac:(discriminate) ltac:(discriminate)
    ltac:(vm_compute; reflexivity) ltac:(vm_compute; reflexivity)) as [Hget Hall].
  split; [exact Hget|]. split; [exact Hall|]. by vm_compute.
Defined.

Lemma versionFlag_sources_witness :
  let w := testWorld [] {["TESTAPP_VERSION" := "1"]} in
  let fs := flagsOf EmptyString false false false false false [] in
  parsedFlags w = inl fs
  ∧ versionFlag testLoader w fs
    = (if pflag.IsChanged fs "version" then versionGiven fs
       else match envValue testLoader w "version" with
            | Some x => default false (strconv.ParseBool x)
            | None => false
            end)
  ∧ versionFlag testLoader w fs = true.
Proof.
  cbn zeta. split; [by vm_compute|].
  split; [|by vm_compute].
  apply (versionFlag_sources testLoader (testWorld [] {["TESTAPP_VERSION" := "1"]})
           (flagsOf EmptyString false false false false false [])).
  vm_compute; reflexivity.
Defined.

(** ** Load with the printers of the package *)

Section printing_facts.
Context {W D : Type} `{Writer W} `{Decoder D}.
Implicit Types (l : Loader) (w : World) (fs : pflag.FlagSet)
  (elem : option ValueKind).

(** X16. Load with one of the two printers of the package, on a command
    line that names none of cobra's own commands, with the version flag
    set and the help flag not set: the sink receives one write, of the
    version line (plain printer) or of the JSON object and a newline
    (structured printer); Load returns (Stop, nil)
    when that write succeeds and Stop with the error of the write, wrapped
    as the printer's failure, when it fails. The destination is as it
    was. *)
Theorem Load_prints_version l w elem (jsonString : string → string)
    (version commit date : string) (s : W) (d : D) fs :
  rootCommandLine (Args w) →
  parsedFlags w = inl fs →
  versionGiven fs = true →
  helpFlag fs = false →
  let plain := call l w (Pointer elem) (Some (PlainVersionPrinter version))
                    (Some s) d in
  let line := Write s (version +:+ newline) in
  let json := call l w (Pointer elem)
                   (Some (JSONVersionPrinter jsonString version commit date))
                   (Some s) d in
  let object :=
    Write s ("{" +:+ dquote +:+ "version" +:+ dquote +:+ ":" +:+ jsonString version
                 +:+ (if bool_decide (commit = EmptyString) then EmptyString
                      else "," +:+ dquote +:+ "commit" +:+ dquote +:+ ":"
                               +:+ jsonString commit)
                 +:+ (if bool_decide (date = EmptyString) then EmptyString
                      else "," +:+ dquote +:+ "date" +:+ dquote +:+ ":"
                               +:+ jsonString date)
                 +:+ "}" +:+ newline) in
  (sink plain.2 = Some line.1
   ∧ plain.1 = (LoadResultStop,
                (fun e => ExecuteRootCommand (PrintVersionFailed e)) <$> line.2.2)
   ∧ dest plain.2 = d)
  ∧ (sink json.2 = Some object.1
     ∧ json.1 = (LoadResultStop,
                 (fun e => ExecuteRootCommand (PrintVersionFailed e)) <$> object.2.2)
     ∧ dest json.2 = d).
Proof.
  intros _ Hp Hv Hh.
  destruct (versionGiven_versionFlag l w fs (Parse_shaped _ _ Hp) Hv) as [Hvf Hch].
  cbn zeta. rewrite <- (encoded_info jsonString).
  rewrite !(call_parsed _ _ _ _ _ _ _ Hp), Hh. cbn zeta.
  rewrite !PreRunE_version by done. cbn [fst snd sink dest trace app].
  rewrite Hch, orb_true_r.
  unfold PlainVersionPrinter, JSONVersionPrinter, Encode, Fprintln.
  destruct (Write s (version +:+ newline)) as [s1 [n1 [e1|]]];
    destruct (Write s (object_text _ _ +:+ newline)) as [s2 [n2 [e2|]]];
    done.
Qed.

End printing_facts.

Lemma Load_prints_version_witness :
  let w := testWorld ["-v"] ∅ in
  let fs := flagsOf EmptyString false true true false false [] in
  let q := fun t => dquote +:+ t +:+ dquote in
  rootCommandLine (Args w)
  ∧ parsedFlags w = inl fs ∧ versionGiven fs = true ∧ helpFlag fs = false
  ∧ (testCall testLoader w).1 = (LoadResultStop, None)
  ∧ sink (testCall testLoader w).2 = Some {| contents := "v1.0.0" +:+ newline |}
  ∧ (call testLoader w (Pointer (Some Struct))
          (Some (JSONVersionPrinter q "v1.0.0" "abc123" EmptyString))
          (Some {| reason := "closed pipe"; attempts := 0 |}) emptyConfig).1
    = (LoadResultStop,
       Some (ExecuteRootCommand (PrintVersionFailed (Foreign "closed pipe")))).
Proof.
  cbn zeta. split; [by vm_compute|].
  split; [by vm_compute|]. split; [by vm_compute|]. split; [by vm_compute|].
  pose proof (Load_prints_version testLoader (testWorld ["-v"] ∅) (Some Struct)
    (fun t => dquote +:+ t +:+ dquote) "v1.0.0" "abc123" EmptyString
    emptyBuffer emptyConfig (flagsOf EmptyString false true true false false [])
    ltac:(vm_compute; reflexivity) ltac:(vm_compute; reflexivity)
    ltac:(vm_compute; reflexivity) ltac:(vm_compute; reflexivity))
    as [(Hsink & Hres & _) _].
  pose proof (Load_prints_version testLoader (testWorld ["-v"] ∅) (Some Struct)
    (fun t => dquote +:+ t +:+ dquote) "v1.0.0" "abc123" EmptyString
    {| reason := "closed pipe"; attempts := 0 |} emptyConfig
    (flagsOf EmptyString false true true false false [])
    ltac:(vm_compute; reflexivity) ltac:(vm_compute; reflexivity)
    ltac:(vm_compute; reflexivity) ltac:(vm_compute; reflexivity))
    as [_ (_ & Hjson & _)].
  split; [exact Hres|]. split; [exact Hsink|]. exact Hjson.
Defined.

(** ** Instances *)

Lemma Load_refuses_in_order_witness :
  let cfg := Value Struct in
  let printVersion : option (VersionPrinter Buffer) := None in
  (KindOf cfg ≠ Ptr ∨ printVersion = None ∨ Some emptyBuffer = None)
  ∧ call testLoader (testWorld ["--version"] ∅) cfg printVersion
         (Some emptyBuffer) emptyConfig
    = ((LoadResultStop, Some (CfgMustBePointer (Other Struct))),
       mkState (Some emptyBuffer) emptyConfig [])
  ∧ kind_of (CfgMustBePointer (Other Struct)) = InvalidArgument.
Proof.
  cbn zeta.
  assert (Hbad : KindOf (Value Struct) ≠ Ptr
                 ∨ @None (VersionPrinter Buffer) = None
                 ∨ Some emptyBuffer = None) by (left; discriminate).
  split; [exact Hbad|].
  exact (Load_refuses_in_order testLoader (testWorld ["--version"] ∅)
           (Value Struct) None (Some emptyBuffer) emptyConfig Hbad).
Defined.

Lemma Load_stops_on_parse_error_witness :
  let w := testWorld ["--config"] ∅ in
  let e := Foreign "flag needs an argument: --config" in
  let r := testCall testLoader w in
  rootCommandLine (Args w)
  ∧ parsedFlags w = inr e
  ∧ r.1 = (LoadResultStop, Some (ExecuteRootCommand e))
  ∧ Unwrap (ExecuteRootCommand e) = Some e
  ∧ trace r.2 = [FlagsParsed (Args w); ErrorShown e]
  ∧ sink r.2 = Some emptyBuffer
  ∧ dest r.2 = emptyConfig.
Proof.
  cbn zeta. split; [by vm_compute|]. split; [by vm_compute|].
  apply (Load_stops_on_parse_error testLoader (testWorld ["--config"] ∅)
           (Some Struct) (PlainVersionPrinter "v1.0.0") emptyBuffer emptyConfig
           (Foreign "flag needs an argument: --config"));
    vm_compute; reflexivity.
Defined.

Lemma Load_reports_unreadable_file_witness :
  let w := testWorld ["-c"; "invalid_config.yaml"] ∅ in
  let fs := flagsOf "invalid_config.yaml" true false false false false [] in
  let e := Foreign "yaml: mapping values are not allowed in this context" in
  let r := testCall testLoader w in
  rootCommandLine (Args w)
  ∧ parsedFlags w = inl fs ∧ helpFlag fs = false ∧ versionFlag testLoader w fs = false
  ∧ ReadFile w (resolvedPath testLoader w fs) = inr e
  ∧ viper.IsConfigFileNotFound e = false
  ∧ r.1 = (LoadResultStop,
           Some (ExecuteRootCommand (ReadMainConfigAt "invalid_config.yaml" e)))
  ∧ dest r.2 = emptyConfig.
Proof.
  cbn zeta. split; [by vm_compute|].
  split; [by vm_compute|]. split; [by vm_compute|]. split; [by vm_compute|].
  split; [by vm_compute|]. split; [by vm_compute|].
  pose proof (Load_reports_unreadable_file testLoader
    (testWorld ["-c"; "invalid_config.yaml"] ∅) (Some Struct)
    (PlainVersionPrinter "v1.0.0") emptyBuffer emptyConfig
    (flagsOf "invalid_config.yaml" true false false false false [])
    (Foreign "yaml: mapping values are not allowed in this context")
    ltac:(vm_compute; reflexivity)
    ltac:(vm_compute; reflexivity) ltac:(vm_compute; reflexivity)
    ltac:(vm_compute; reflexivity) ltac:(vm_compute; reflexivity)
    ltac:(vm_compute; reflexivity)) as (Hres & _ & _ & _ & Hdest).
  split; [exact Hres|exact Hdest].
Defined.

Lemma Load_keeps_partial_decode_witness :
  let w := testWorld [] {["TESTAPP_PORT" := "eighty"]} in
  let fs := flagsOf EmptyString false false false false false [] in
  let e := Foreign "cannot parse 'port' as int" in
  let r := testCall testLoader w in
  rootCommandLine (Args w)
  ∧ parsedFlags w = inl fs ∧ helpFlag fs = false ∧ versionFlag testLoader w fs = false
  ∧ ReadFile w (resolvedPath testLoader w fs) = inl defaultSettings
  ∧ r.1 = (LoadResultStop, Some (ExecuteRootCommand (UnmarshalMainConfig e)))
  ∧ dest r.2 = {| LogLevel := "info"; Port := 0 |}
  ∧ sink r.2 = Some emptyBuffer.
Proof.
  cbn zeta. split; [by vm_compute|].
  split; [by vm_compute|]. split; [by vm_compute|]. split; [by vm_compute|].
  split; [by vm_compute|].
  apply (Load_keeps_partial_decode testLoader
           (testWorld [] {["TESTAPP_PORT" := "eighty"]}) Struct
           (PlainVersionPrinter "v1.0.0") emptyBuffer emptyConfig
           {| LogLevel := "info"; Port := 0 |}
           (flagsOf EmptyString false false false false false [])
           defaultSettings (Foreign "cannot parse 'port' as int"));
    vm_compute; reflexivity.
Defined.

Lemma Load_continues_with_config_witness :
  let w := testWorld ["-c"; "config.yaml"] {["TESTAPP_LOG_LEVEL" := "debug"]} in
  let fs := flagsOf "config.yaml" true false false false false [] in
  rootCommandLine (Args w)
  ∧ parsedFlags w = inl fs
  ∧ pflag.IsChanged fs "help" = false ∧ pflag.IsChanged fs "version" = false
  ∧ versionFlag testLoader w fs = false
  ∧ ReadFile w (resolvedPath testLoader w fs) = inl defaultSettings
  ∧ testCall testLoader w
    = ((LoadResultContinue, None),
       mkState (Some emptyBuffer) {| LogLevel := "debug"; Port := 8080 |}
               [FlagsParsed (Args w); ConfigFileSet (resolvedPath testLoader w fs);
                ConfigRead (resolvedPath testLoader w fs); Unmarshalled]).
Proof.
  cbn zeta. split; [by vm_compute|].
  split; [by vm_compute|]. split; [by vm_compute|]. split; [by vm_compute|].
  split; [by vm_compute|]. split; [by vm_compute|].
  apply (Load_continues_with_config testLoader
           (testWorld ["-c"; "config.yaml"] {["TESTAPP_LOG_LEVEL" := "debug"]})
           Struct (PlainVersionPrinter "v1.0.0") emptyBuffer emptyConfig
           {| LogLevel := "debug"; Port := 8080 |}
           (flagsOf "config.yaml" true false false false false [])
           defaultSettings);
    vm_compute; reflexivity.
Defined.

Lemma Continue_means_loaded_witness :
  let r := testCall testLoader (testWorld ["extra"] ∅) in
  rootCommandLine ["extra"]
  ∧ r.1.1 = LoadResultContinue
  ∧ r.1.2 = None
  ∧ ∃ fs, parsedFlags (testWorld ["extra"] ∅) = inl fs
          ∧ pflag.IsChanged fs "help" = false
          ∧ pflag.IsChanged fs "version" = false.
Proof.
  cbn zeta.
  assert (Hc : (testCall testLoader (testWorld ["extra"] ∅)).1.1 = LoadResultContinue)
    by (vm_compute; reflexivity).
  assert (Hr : rootCommandLine (Args (testWorld ["extra"] ∅)))
    by (vm_compute; reflexivity).
  split; [exact Hr|]. split; [exact Hc|].
  destruct (Continue_means_loaded testLoader (testWorld ["extra"] ∅)
              (Pointer (Some Struct)) (Some (PlainVersionPrinter "v1.0.0"))
              (Some emptyBuffer) emptyConfig Hr Hc)
    as (Hnone & elem & pv & s & fs & _ & _ & _ & Hp & Hh & Hv & _).
  split; [exact Hnone|]. exists fs. auto.
Defined.

Lemma result_follows_command_line_witness :
  let w := testWorld ["--help=false"] ∅ in
  let r := testCall testLoader w in
  rootCommandLine (Args w)
  ∧ r.1.2 = None
  ∧ (∃ fs, parsedFlags w = inl fs
           ∧ r.1.1 = if pflag.IsChanged fs "help" || pflag.IsChanged fs "version"
                     then LoadResultStop else LoadResultContinue)
  ∧ r.1.1 = LoadResultStop.
Proof.
  cbn zeta.
  assert (Hn : (testCall testLoader (testWorld ["--help=false"] ∅)).1.2 = None)
    by (vm_compute; reflexivity).
  assert (Hr : rootCommandLine (Args (testWorld ["--help=false"] ∅)))
    by (vm_compute; reflexivity).
  split; [exact Hr|]. split; [exact Hn|]. split; [|by vm_compute].
  exact (result_follows_command_line testLoader (testWorld ["--help=false"] ∅)
           (Pointer (Some Struct)) (Some (PlainVersionPrinter "v1.0.0"))
           (Some emptyBuffer) emptyConfig Hr Hn).
Defined.

Lemma Load_errors_witness :
  let w := testWorld ["--config"; "nonexistent.yaml"] ∅ in
  let e := ExecuteRootCommand
             (ReadMainConfigAt "nonexistent.yaml"
                (Foreign "open nonexistent.yaml: no such file or directory")) in
  let r := testCall testLoader w in
  rootCommandLine (Args w)
  ∧ r.1.2 = Some e
  ∧ r.1.1 = LoadResultStop
  ∧ (e = refusal (Pointer (Some Struct))
               (Some (PlainVersionPrinter (W:=Buffer) "v1.0.0"))
     ∨ ∃ c, e = ExecuteRootCommand c
            ∧ (parsedFlags w = inr c
               ∨ (∃ x, c = PrintVersionFailed x)
               ∨ (∃ p, c = ConfigFileNotFoundAt p)
               ∨ (∃ p x, c = ReadMainConfigAt p x)
               ∨ (∃ x, c = UnmarshalMainConfig x))).
Proof.
  cbn zeta.
  assert (Hr : rootCommandLine (Args (testWorld ["--config"; "nonexistent.yaml"] ∅)))
    by (vm_compute; reflexivity).
  assert (He : (testCall testLoader (testWorld ["--config"; "nonexistent.yaml"] ∅)).1.2
               = Some (ExecuteRootCommand
                         (ReadMainConfigAt "nonexistent.yaml"
                            (Foreign "open nonexistent.yaml: no such file or directory"))))
    by (vm_compute; reflexivity).
  split; [exact Hr|]. split; [exact He|].
  exact (Load_errors testLoader (testWorld ["--config"; "nonexistent.yaml"] ∅)
           (Pointer (Some Struct)) (Some (PlainVersionPrinter "v1.0.0"))
           (Some emptyBuffer) emptyConfig _ Hr He).
Defined.

Lemma Load_reports_missing_file_witness :
  let l := NewLoader "testapp" "Test App" EmptyString EmptyString "TESTAPP" in
  let w := testWorld [] ∅ in
  let fs := flagsOf EmptyString false false false false false [] in
  let r := testCall l w in
  rootCommandLine (Args w)
  ∧ parsedFlags w = inl fs ∧ helpFlag fs = false ∧ versionFlag l w fs = false
  ∧ ReadFile w = readFrom testFileSystem
  ∧ resolvedPath l w fs = EmptyString
  ∧ testFileSystem !! resolvedPath l w fs = None
  ∧ (∃ cause,
       r.1 = (LoadResultStop,
              Some (ExecuteRootCommand
                      (if bool_decide (resolvedPath l w fs = EmptyString)
                       then ConfigFileNotFoundAt (resolvedPath l w fs)
                       else ReadMainConfigAt (resolvedPath l w fs) cause)))
       ∧ ReadFile w (resolvedPath l w fs) = inr cause
       ∧ viper.IsConfigFileNotFound cause
         = bool_decide (resolvedPath l w fs = EmptyString))
  ∧ r.1 = (LoadResultStop,
           Some (ExecuteRootCommand (ConfigFileNotFoundAt EmptyString))).
Proof.
  cbn zeta. split; [by vm_compute|].
  split; [by vm_compute|]. split; [by vm_compute|]. split; [by vm_compute|].
  split; [reflexivity|]. split; [by vm_compute|]. split; [by vm_compute|].
  split; [|by vm_compute].
  apply (Load_reports_missing_file
           (NewLoader "testapp" "Test App" EmptyString EmptyString "TESTAPP")
           (testWorld [] ∅) (Some Struct) (PlainVersionPrinter "v1.0.0")
           emptyBuffer emptyConfig
           (flagsOf EmptyString false false false false false [])
           testFileSystem);
    vm_compute; reflexivity.
Defined.
